(** * aratools.parcour: a shallow embedding and its verified properties

    The development follows [src/aratools/parcour.py]: the checkpoint and
    etappe (stage) dataclasses, the extraction of etappes from a parsed KML
    document, the team roster loader, and the filter that removes hidden
    checkpoints from a KML document.

    Python exceptions are values of [exn]; a computation that may raise has
    type [result A].  Strings are ASCII strings. *)

From Stdlib Require Import Ascii String Floats.SpecFloat.
From stdpp Require Import gmap strings list sorting pretty.

Local Open Scope string_scope.
Local Open Scope list_scope.
Local Open Scope Z_scope.

(** ** Exceptions and the error monad *)

Inductive exn : Type :=
  | AssertionError
  | KeyError (key : string)
  | ValueError
  | TypeError
  | AttributeError
  | IndexError
  | OverflowError
  | RecursionError.

Inductive result (A : Type) : Type :=
  | Ok (a : A)
  | Raise (e : exn).
Arguments Ok {A} a.
Arguments Raise {A} e.

#[global] Instance result_ret : MRet result := fun A a => Ok a.
#[global] Instance result_bind : MBind result := fun A B f m =>
  match m with
  | Ok a => f a
  | Raise e => Raise e
  end.
#[global] Instance result_fmap : FMap result := fun A B f m =>
  match m with
  | Ok a => Ok (f a)
  | Raise e => Raise e
  end.

(** [assert b]: Python's [assert] statement. *)
Definition assert (b : bool) : result unit :=
  if b then Ok tt else Raise AssertionError.

(** [for x in l: ...] collecting results, stopping at the first exception. *)
Fixpoint mapM_result {A B : Type} (f : A -> result B) (l : list A) : result (list B) :=
  match l with
  | [] => Ok []
  | x :: l' => y ← f x; ys ← mapM_result f l'; Ok (y :: ys)
  end.

Definition is_ok {A : Type} (r : result A) : Prop := exists a, r = Ok a.

(** ** CheckPoint *)

Module CheckPoint.
Record t : Type := mk {
  idx : Z;
  score : Z;
  hint : string;
  hidden : bool;
  coordinate : Z * Z
}.
End CheckPoint.

#[global] Instance CheckPoint_eq_dec : EqDecision CheckPoint.t.
Proof. solve_decision. Defined.

(** The Python objects that take part in a comparison of checkpoints. *)
Inductive value : Type :=
  | VInt (z : Z)
  | VCheckPoint (c : CheckPoint.t).

Inductive cmpop : Type := Py_LT | Py_GT.

Definition swapped (op : cmpop) : cmpop :=
  match op with Py_LT => Py_GT | Py_GT => Py_LT end.

(** [int.__lt__] and [int.__gt__]: [None] is [NotImplemented]. *)
Definition int_richcompare (op : cmpop) (z : Z) (other : value) : option bool :=
  match other with
  | VInt w => Some (match op with Py_LT => z <? w | Py_GT => z >? w end)
  | VCheckPoint _ => None
  end.

(** The operators [x < y] and [x > y]: the left operand's method first,
    then the reflected method of the right operand, then [TypeError].
    [CheckPoint.__lt__] is [self.idx < other], [CheckPoint.__gt__] is
    [self.idx > other]; the fuel is the interpreter's recursion limit. *)
Fixpoint richcompare (fuel : nat) (op : cmpop) (x y : value) : result bool :=
  match fuel with
  | O => Raise RecursionError
  | S fuel' =>
      let method (op : cmpop) (self other : value) : result (option bool) :=
        match self with
        | VInt z => Ok (int_richcompare op z other)
        | VCheckPoint c => Some <$> richcompare fuel' op (VInt (CheckPoint.idx c)) other
        end in
      r ← method op x y;
      match r with
      | Some b => Ok b
      | None =>
          r' ← method (swapped op) y x;
          match r' with
          | Some b => Ok b
          | None => Raise TypeError
          end
      end
  end.

Definition recursion_limit : nat := 1000.

Definition __lt__ (self : CheckPoint.t) (other : value) : result bool :=
  richcompare recursion_limit Py_LT (VInt (CheckPoint.idx self)) other.

Definition __gt__ (self : CheckPoint.t) (other : value) : result bool :=
  richcompare recursion_limit Py_GT (VInt (CheckPoint.idx self)) other.

(** [a < b] and [a > b] on two checkpoints. *)
Definition cp_lt (a b : CheckPoint.t) : result bool :=
  richcompare recursion_limit Py_LT (VCheckPoint a) (VCheckPoint b).

Definition cp_gt (a b : CheckPoint.t) : result bool :=
  richcompare recursion_limit Py_GT (VCheckPoint a) (VCheckPoint b).

(** ** sorted

    [sorted] compares with [<] only and is stable.  It is modelled as the
    insertion of each element, left to right, into the sorted prefix: the
    element goes in front of the first one it is smaller than. *)
Fixpoint insert_sorted (x : CheckPoint.t) (l : list CheckPoint.t)
  : result (list CheckPoint.t) :=
  match l with
  | [] => Ok [x]
  | y :: l' =>
      b ← cp_lt x y;
      if b : bool then Ok (x :: y :: l')
      else (r ← insert_sorted x l'; Ok (y :: r))
  end.

Definition sorted (l : list CheckPoint.t) : result (list CheckPoint.t) :=
  foldl (fun acc x => acc' ← acc; insert_sorted x acc') (Ok []) l.

(** ** Etappe *)

Module Etappe.
Record t : Type := mk {
  idx : Z;
  kind : string;
  checkpoints : list CheckPoint.t
}.
End Etappe.

Definition __post_init__ (self : Etappe.t) : result unit :=
  s ← sorted (Etappe.checkpoints self);
  _ ← assert (bool_decide (s = Etappe.checkpoints self));
  assert (bool_decide (1 < length (Etappe.checkpoints self))%nat).

(** The constructor generated by [@dataclass]: fields, then [__post_init__]. *)
Definition Etappe_new (idx : Z) (kind : string) (checkpoints : list CheckPoint.t)
  : result Etappe.t :=
  let self := Etappe.mk idx kind checkpoints in
  _ ← __post_init__ self; Ok self.

(** ** Built-in operations on strings, lists and numbers *)

Module Py.

(** [s.count(c)] for a one-character [c]. *)
Fixpoint count (c : ascii) (s : string) : nat :=
match s with
| EmptyString => 0%nat
| String a s' => ((if bool_decide (a = c) then 1 else 0) + count c s')%nat
end.

(** [s.split(c)] for a one-character separator [c]. *)
Fixpoint split (c : ascii) (s : string) : list string :=
match s with
| EmptyString => [""]
| String a s' =>
    if bool_decide (a = c) then "" :: split c s'
    else match split c s' with
         | [] => [String a ""]
         | part :: parts => String a part :: parts
         end
end.

(** [l[i]] with Python's negative indices. *)
Definition getitem {A : Type} (l : list A) (i : Z) : result A :=
let n := Z.of_nat (length l) in
let j := if i <? 0 then i + n else i in
if (0 <=? j) && (j <? n) then
  match l !! Z.to_nat j with
  | Some x => Ok x
  | None => Raise IndexError
  end
else Raise IndexError.

(** [str(x)] of a value that is a string or [None]. *)
Definition str (x : option string) : string :=
match x with
| Some s => s
| None => "None"
end.

Definition lower_ascii (a : ascii) : ascii :=
let n := nat_of_ascii a in
if (65 <=? n)%nat && (n <=? 90)%nat then ascii_of_nat (n + 32) else a.

(** [s.lower()]. *)
Fixpoint lower (s : string) : string :=
match s with
| EmptyString => ""
| String a s' => String (lower_ascii a) (lower s')
end.

(** The characters [str.strip] removes: tab to carriage return, the four
  separators 0x1c-0x1f, and the space. *)
Definition is_space (a : ascii) : bool :=
let n := nat_of_ascii a in
((9 <=? n)%nat && (n <=? 13)%nat) || ((28 <=? n)%nat && (n <=? 32)%nat).

Fixpoint lstrip (space : ascii -> bool) (s : string) : string :=
match s with
| EmptyString => ""
| String a s' => if space a then lstrip space s' else s
end.

Fixpoint rstrip (space : ascii -> bool) (s : string) : string :=
match s with
| EmptyString => ""
| String a s' =>
    match rstrip space s' with
    | EmptyString => if space a then "" else String a ""
    | r => String a r
    end
end.

(** [s.strip()]. *)
Definition strip (s : string) : string := rstrip is_space (lstrip is_space s).

(** [int(s)] for a string [s], base ten: white space (the C locale's, for
  an ASCII string) around an optional sign and decimal digits, where a
  single underscore may separate two digits. *)
Definition is_c_space (a : ascii) : bool :=
let n := nat_of_ascii a in
((9 <=? n)%nat && (n <=? 13)%nat) || (n =? 32)%nat.

Definition digit_value (a : ascii) : option Z :=
let n := nat_of_ascii a in
if (48 <=? n)%nat && (n <=? 57)%nat then Some (Z.of_nat n - 48) else None.

(** The digits after a first digit of accumulated value [acc]. *)
Fixpoint more_digits (acc : Z) (s : string) : option Z :=
match s with
| EmptyString => Some acc
| String a s' =>
    match digit_value a with
    | Some d => more_digits (10 * acc + d) s'
    | None =>
        if bool_decide (a = "_"%char) then
          match s' with
          | String b s'' =>
              match digit_value b with
              | Some d => more_digits (10 * acc + d) s''
              | None => None
              end
          | EmptyString => None
          end
        else None
    end
end.

Definition digits (s : string) : option Z :=
match s with
| String a s' =>
    match digit_value a with
    | Some d => more_digits d s'
    | None => None
    end
| EmptyString => None
end.

Definition int (s : string) : result Z :=
let body := rstrip is_c_space (lstrip is_c_space s) in
let signed :=
  match body with
  | String "-" s' => Z.opp <$> digits s'
  | String "+" s' => digits s'
  | _ => digits body
  end in
match signed with
| Some z => Ok z
| None => Raise ValueError
end.

(** [int(x)] for a float [x]: truncation towards zero. *)
Definition int_of_float (x : spec_float) : result Z :=
match x with
| S754_zero _ => Ok 0
| S754_infinity _ => Raise OverflowError
| S754_nan => Raise ValueError
| S754_finite s m e =>
    let magnitude := Z.shiftl (Z.pos m) e in
    Ok (if s then - magnitude else magnitude)
end.

(** [bool(z)] for an integer [z]. *)
Definition bool_of_int (z : Z) : bool := negb (z =? 0).

(** [f.readlines()]: the lines of a text, each with its newline. *)
Definition newline : ascii := "010"%char.

Fixpoint readlines (content : string) : list string :=
match content with
| EmptyString => []
| String a s' =>
    if bool_decide (a = newline) then String a "" :: readlines s'
    else match readlines s' with
         | [] => [String a ""]
         | line :: lines => String a line :: lines
         end
end.

(** [enumerate(l)]. *)
Definition enumerate {A : Type} (l : list A) : list (nat * A) :=
imap (fun i x => (i, x)) l.

End Py.

(** ** Team roster *)

Definition _process_teams_file (content : string) : result (list string) :=
  let lines := Py.readlines content in
  let lines := filter (fun line => String.length line <> 0%nat) lines in
  let team_names :=
    (fun '(i, line) => pretty (i + 1)%nat +:+ " " +:+ Py.strip line) <$> Py.enumerate lines in
  _ ← assert (negb (bool_decide (length team_names = 0%nat)));
  Ok team_names.

(** ** The parsed KML document

    A placemark carries its extended data (a list of named values, or
    nothing) and its geometry (a point, or nothing; reading the geometry
    of a placemark that has none raises [AttributeError]).  The children of a
    folder are placemarks; the children of a document are folders or
    placemarks; a KML file holds a list of top-level features. *)

Record Data : Type := { data_name : string; data_value : string }.

Record Point : Type := { x : spec_float; y : spec_float }.

Module Placemark.
Record t : Type := mk {
  name : option string;
  extended_data : option (list Data);
  geometry : option Point
}.
End Placemark.

Module Folder.
Record t : Type := mk {
  ns : string;
  id : option string;
  name : option string;
  description : option string;
  styles : list string;
  styleUrl : option string;
  features : list Placemark.t
}.
End Folder.

Inductive DocFeature : Type :=
  | FolderF (f : Folder.t)
  | PlacemarkF (p : Placemark.t).

Module Document.
Record t : Type := mk {
  ns : string;
  name : option string;
  features : list DocFeature
}.
End Document.

Inductive KmlFeature : Type :=
  | DocumentK (d : Document.t)
  | FolderK (f : Folder.t)
  | PlacemarkK (p : Placemark.t).

Module KML.
Record t : Type := mk { features : list KmlFeature }.
End KML.

(** A KML file: the suffix of its path and its parsed content. *)
Record KmlFile : Type := { suffix : string; parsed : KML.t }.

(** [{e.name.lower(): e.value for e in placemark.extended_data.elements}]:
    a later element replaces an earlier one of the same lower-cased name. *)
Definition cp_data (placemark : Placemark.t) : result (gmap string string) :=
  match Placemark.extended_data placemark with
  | None => Raise AttributeError
  | Some elements =>
      Ok (foldl (fun d e => <[Py.lower (data_name e) := data_value e]> d) ∅ elements)
  end.

(** [d[key]]. *)
Definition subscript (d : gmap string string) (key : string) : result string :=
  match d !! key with
  | Some v => Ok v
  | None => Raise (KeyError key)
  end.

(** The test both [_process_etappes_kml] and [strip_hidden_cp_from_kml]
    apply to a folder: [str(f.name).count("_") == 2]. *)
Definition is_etappe_folder (f : Folder.t) : bool :=
  bool_decide (Py.count "_" (Py.str (Folder.name f)) = 2%nat).

Fixpoint filterM_result {A : Type} (f : A -> result bool) (l : list A) : result (list A) :=
  match l with
  | [] => Ok []
  | a :: l' =>
      b ← f a; r ← filterM_result f l';
      Ok (if b : bool then a :: r else r)
  end.

(** The children of a document, when all of them are folders. *)
Fixpoint as_folders (fs : list DocFeature) : option (list Folder.t) :=
  match fs with
  | [] => Some []
  | FolderF f :: fs' => cons f <$> as_folders fs'
  | PlacemarkF _ :: _ => None
  end.

(** ** strip_hidden_cp_from_kml *)

(** [not bool(int(cp_data["hidden"]))] for a placemark. *)
Definition not_hidden (placemark : Placemark.t) : result bool :=
  d ← cp_data placemark;
  v ← subscript d "hidden";
  z ← Py.int v;
  Ok (negb (Py.bool_of_int z)).

(** The body of the loop over the old folders. *)
Definition strip_folder (old_feature : DocFeature) : result DocFeature :=
  match old_feature with
  | PlacemarkF _ => Raise AssertionError
  | FolderF old_folder =>
      let new_folder kept :=
        Folder.mk (Folder.ns old_folder) (Folder.id old_folder)
          (Folder.name old_folder) (Folder.description old_folder)
          (Folder.styles old_folder) (Folder.styleUrl old_folder) kept in
      if is_etappe_folder old_folder then
        kept ← filterM_result not_hidden (Folder.features old_folder);
        Ok (FolderF (new_folder kept))
      else Ok (FolderF (new_folder (Folder.features old_folder)))
  end.

(** What [ns], [name] and [features()] give on the first top-level feature. *)
Definition container (k : KmlFeature) : result (string * option string * list DocFeature) :=
  match k with
  | DocumentK d => Ok (Document.ns d, Document.name d, Document.features d)
  | FolderK f => Ok (Folder.ns f, Folder.name f, PlacemarkF <$> Folder.features f)
  | PlacemarkK _ => Raise AttributeError
  end.

(** The new KML object of [strip_hidden_cp_from_kml], which is then written
    to the file named after the old one. *)
Definition strip_hidden_cp_from_kml (file : KmlFile) : result KML.t :=
  _ ← assert (bool_decide (suffix file = ".kml"));
  old_doc ← Py.getitem (KML.features (parsed file)) 0;
  '(ns, name, old_folders) ← container old_doc;
  new_folders ← mapM_result strip_folder old_folders;
  Ok (KML.mk [DocumentK (Document.mk ns name new_folders)]).

(** ** Extraction of etappes and the parcour

    Two operations are not part of this module and are parameters: the
    parser of a float, [float(s)], and the coordinate converter
    [WKT_converter.to_amersfoort] of [aratools.coordinate]. *)

Record Parcour : Type := {
  team_names : list string;
  etappes : gmap Z Etappe.t
}.

Section Extraction.

Variable float : string -> result spec_float.
Variable to_amersfoort : spec_float -> spec_float -> Z * Z.

(** The body of the loop of [from_kml_folder] for the placemark at
    position [i].  After the attributes are collected,
    [placemark.geometry] is read, before any attribute is looked up: on
    a placemark without geometry it raises [AttributeError]. *)
Definition make_checkpoint (i : nat) (placemark : Placemark.t) : result CheckPoint.t :=
  d ← cp_data placemark;
  point ← match Placemark.geometry placemark with
          | Some pt => Ok pt
          | None => Raise AttributeError
          end;
  score_str ← subscript d "score";
  score_float ← float score_str;
  score ← Py.int_of_float score_float;
  hint ← subscript d "hint";
  hidden_str ← subscript d "hidden";
  hidden_int ← Py.int hidden_str;
  Ok (CheckPoint.mk (Z.of_nat i + 1) score hint (Py.bool_of_int hidden_int)
        (to_amersfoort (x point) (y point))).

Definition from_kml_folder (folder : Folder.t) : result Etappe.t :=
  let name := Py.str (Folder.name folder) in
  _ ← assert (bool_decide (Py.count "_" name = 2%nat));
  idx_str ← Py.getitem (Py.split "_" name) (-2);
  idx ← Py.int idx_str;
  kind ← Py.getitem (Py.split "_" name) (-1);
  cps ← mapM_result (fun '(i, placemark) => make_checkpoint i placemark)
          (Py.enumerate (Folder.features folder));
  Etappe_new idx kind cps.

(** [{et.idx: et for et in _etappes}]: a later etappe replaces an earlier
    one of the same index. *)
Definition index_etappes (ets : list Etappe.t) : gmap Z Etappe.t :=
  foldl (fun d et => <[Etappe.idx et := et]> d) ∅ ets.

Definition _process_etappes_kml (file : KmlFile) : result (gmap Z Etappe.t) :=
  _ ← assert (bool_decide (suffix file = ".kml"));
  first ← Py.getitem (KML.features (parsed file)) 0;
  doc ← match first with
        | DocumentK d => Ok d
        | _ => Raise AssertionError
        end;
  folders ← match as_folders (Document.features doc) with
            | Some fs => Ok fs
            | None => Raise AssertionError
            end;
  _etappes ← mapM_result from_kml_folder (filter (fun f => is_etappe_folder f = true) folders);
  Ok (index_etappes _etappes).

Definition Parcour_init (team_csv : string) (etappe_kml : KmlFile) : result Parcour :=
  names ← _process_teams_file team_csv;
  ets ← _process_etappes_kml etappe_kml;
  Ok {| team_names := names; etappes := ets |}.

End Extraction.

(** ** Auxiliary notions used in the statements *)

(** The order of two checkpoints by index. *)
Definition idx_le (a b : CheckPoint.t) : Prop :=
  CheckPoint.idx a <= CheckPoint.idx b.

(** The integer that [int(cp_data["hidden"])] gives for a placemark, when
    the attribute is there and is an integer. *)
Definition hidden_value (placemark : Placemark.t) : option Z :=
  match cp_data placemark with
  | Ok d =>
      match d !! "hidden" with
      | Some v => match Py.int v with Ok z => Some z | Raise _ => None end
      | None => None
      end
  | Raise _ => None
  end.

(** The copy of a folder that the filter is to make, in the words of its
    description: an etappe folder keeps the features whose attribute
    [hidden] is the integer zero, in their order; any other folder keeps
    all its features. *)
Definition visible_copy (f : Folder.t) : Folder.t :=
  Folder.mk (Folder.ns f) (Folder.id f) (Folder.name f) (Folder.description f)
    (Folder.styles f) (Folder.styleUrl f)
    (if is_etappe_folder f
     then filter (fun placemark => hidden_value placemark = Some 0) (Folder.features f)
     else Folder.features f).

(** A document with the given name space and name whose children are the
    given folders, in a file with the suffix of a KML file. *)
Definition kml_file (ns : string) (name : option string) (folders : list Folder.t) : KmlFile :=
  {| suffix := ".kml";
     parsed := KML.mk [DocumentK (Document.mk ns name (FolderF <$> folders))] |}.

(** The comparison of two integers that [op] stands for. *)
Definition int_cmp (op : cmpop) (z w : Z) : bool :=
  match op with Py_LT => z <? w | Py_GT => z >? w end.

(** An instance of the two parameters, for running the extraction on
    examples: [float] on decimal integer literals (rounded to the nearest
    binary64 number), and a converter that truncates both coordinates. *)
Module Sample.
Definition float (s : string) : result spec_float :=
  z ← Py.int s; Ok (binary_normalize 53 1024 z 0 false).

Definition truncate (v : spec_float) : Z :=
  match Py.int_of_float v with
  | Ok z => z
  | Raise _ => 0
  end.

Definition to_amersfoort (lon lat : spec_float) : Z * Z :=
  (truncate lon, truncate lat).

(** Documents for the examples. *)
Definition point : Point :=
  {| x := binary_normalize 53 1024 5 0 false;
     y := binary_normalize 53 1024 52 0 false |}.

Definition placemark (name score hint hidden : string) : Placemark.t :=
  Placemark.mk (Some name)
    (Some [ {| data_name := "Index"; data_value := "7" |};
            {| data_name := "Score"; data_value := score |};
            {| data_name := "hint"; data_value := hint |};
            {| data_name := "HIDDEN"; data_value := hidden |} ])
    (Some point).

(** A placemark without the attribute [hint]. *)
Definition placemark_without_hint (name : string) : Placemark.t :=
  Placemark.mk (Some name)
    (Some [ {| data_name := "score"; data_value := "10" |};
            {| data_name := "hidden"; data_value := "0" |} ])
    (Some point).

Definition folder (name : string) (features : list Placemark.t) : Folder.t :=
  Folder.mk "{http://www.opengis.net/kml/2.2}" None (Some name) None [] None features.

Definition file (folders : list Folder.t) : KmlFile :=
  kml_file "{http://www.opengis.net/kml/2.2}" (Some "parcour") folders.

Definition etappe_1 : Folder.t :=
  folder "Etappe_1_hardlopen"
    [ placemark "start" "10" "Onder de brug" "0";
      placemark "cp" "20" "Paaltje" "1";
      placemark "finish" "30" "Hek" "0" ].

Definition etappe_1_again : Folder.t :=
  folder "Stage_1_fietsen"
    [ placemark "a" "5" "Bankje" "0";
      placemark "b" "15" "Boom" "0" ].

Definition notes : Folder.t :=
  folder "Notes" [ placemark_without_hint "parking" ].
End Sample.

(** ** The etappe as a collection, and the order of etappes

    [Etappe.__lt__] is [bool(self.idx < other)] and [Etappe.__gt__] is
    [bool(self.idx > other)]: the operators are those of [richcompare],
    over the objects that now include the etappes. *)

Inductive object : Type :=
  | OInt (z : Z)
  | OCheckPoint (c : CheckPoint.t)
  | OEtappe (e : Etappe.t).

Definition int_richcompare_object (op : cmpop) (z : Z) (other : object) : option bool :=
  match other with
  | OInt w => Some (match op with Py_LT => z <? w | Py_GT => z >? w end)
  | _ => None
  end.

Fixpoint richcompare_object (fuel : nat) (op : cmpop) (x y : object) : result bool :=
  match fuel with
  | O => Raise RecursionError
  | S fuel' =>
      let method (op : cmpop) (self other : object) : result (option bool) :=
        match self with
        | OInt z => Ok (int_richcompare_object op z other)
        | OCheckPoint c => Some <$> richcompare_object fuel' op (OInt (CheckPoint.idx c)) other
        | OEtappe e => Some <$> richcompare_object fuel' op (OInt (Etappe.idx e)) other
        end in
      r ← method op x y;
      match r with
      | Some b => Ok b
      | None =>
          r' ← method (swapped op) y x;
          match r' with
          | Some b => Ok b
          | None => Raise TypeError
          end
      end
  end.

Definition object_of_value (v : value) : object :=
  match v with
  | VInt z => OInt z
  | VCheckPoint c => OCheckPoint c
  end.

Module EtappeOps.

Definition __lt__ (self : Etappe.t) (other : object) : result bool :=
  richcompare_object recursion_limit Py_LT (OInt (Etappe.idx self)) other.

Definition __gt__ (self : Etappe.t) (other : object) : result bool :=
  richcompare_object recursion_limit Py_GT (OInt (Etappe.idx self)) other.

Definition __len__ (self : Etappe.t) : nat := length (Etappe.checkpoints self).

(** The checkpoints that the iterator yields, in its order. *)
Definition __iter__ (self : Etappe.t) : list CheckPoint.t := Etappe.checkpoints self.

(** [self.checkpoints[key]] for an integer [key]. *)
Definition __getitem__ (self : Etappe.t) (key : Z) : result CheckPoint.t :=
  Py.getitem (Etappe.checkpoints self) key.

(** [x in self.checkpoints]: an object is in the tuple when it is equal
    to one of its elements, and only a checkpoint is equal to a
    checkpoint. *)
Definition __contains__ (self : Etappe.t) (x : object) : bool :=
  match x with
  | OCheckPoint c => bool_decide (c ∈ Etappe.checkpoints self)
  | _ => false
  end.

End EtappeOps.

(** ** Further notions used in the statements *)

(** The integer by which an object is compared. *)
Definition object_index (x : object) : Z :=
  match x with
  | OInt z => z
  | OCheckPoint c => CheckPoint.idx c
  | OEtappe e => Etappe.idx e
  end.

(** [c.join(parts)] for a one-character [c]. *)
Fixpoint join (c : ascii) (parts : list string) : string :=
  match parts with
  | [] => ""
  | [part] => part
  | part :: parts' => part +:+ String c (join c parts')
  end.

(** The text of a file whose lines are the given strings, each followed
    by a newline. *)
Fixpoint unlines (lines : list string) : string :=
  match lines with
  | [] => ""
  | line :: lines' => line +:+ String Py.newline (unlines lines')
  end.

Definition set_idx (i : Z) (cp : CheckPoint.t) : CheckPoint.t :=
  CheckPoint.mk i (CheckPoint.score cp) (CheckPoint.hint cp)
    (CheckPoint.hidden cp) (CheckPoint.coordinate cp).

(** The checkpoints numbered again from [start + 1], in their order. *)
Definition renumber (start : nat) (cps : list CheckPoint.t) : list CheckPoint.t :=
  imap (fun i cp => set_idx (Z.of_nat (start + i) + 1) cp) cps.

(** * Properties *)

(** ** The monad *)

Lemma bind_Ok {A B : Type} (f : A -> result B) (a : A) : (Ok a ≫= f) = f a.
Proof. reflexivity. Qed.

Lemma bind_Raise {A B : Type} (f : A -> result B) (e : exn) :
  (Raise e ≫= f) = Raise e.
Proof. reflexivity. Qed.

Lemma bind_is_Ok {A B : Type} (f : A -> result B) (m : result A) (b : B) :
  (m ≫= f) = Ok b -> exists a, m = Ok a /\ f a = Ok b.
Proof. destruct m as [a|e]; [eauto | discriminate]. Qed.

(** ** Comparison of checkpoints *)

Section Comparison.

Implicit Types a b c : CheckPoint.t.

Lemma richcompare_int_int fuel op z w :
  richcompare (S fuel) op (VInt z) (VInt w) = Ok (int_cmp op z w).
Proof. reflexivity. Qed.

(** An integer against a checkpoint: [int] does not know checkpoints, so
    the reflected method of the checkpoint answers. *)
Lemma richcompare_int_cp fuel op z c :
  richcompare (S (S fuel)) op (VInt z) (VCheckPoint c)
  = Ok (int_cmp (swapped op) (CheckPoint.idx c) z).
Proof. reflexivity. Qed.

Lemma richcompare_cp_cp fuel op a b :
  richcompare (S (S (S fuel))) op (VCheckPoint a) (VCheckPoint b)
  = Ok (int_cmp op (CheckPoint.idx a) (CheckPoint.idx b)).
Proof.
  change (richcompare (S (S (S fuel))) op (VCheckPoint a) (VCheckPoint b))
    with (Ok (int_cmp (swapped op) (CheckPoint.idx b) (CheckPoint.idx a)) : result bool).
  f_equal. destruct op; simpl; [apply Z.gtb_ltb | rewrite Z.gtb_ltb; reflexivity].
Qed.

(** The two methods of a checkpoint, on an integer and on a checkpoint. *)
Lemma lt_method_spec a :
  (forall z, __lt__ a (VInt z) = Ok (CheckPoint.idx a <? z)) /\
  (forall b, __lt__ a (VCheckPoint b) = Ok (CheckPoint.idx b >? CheckPoint.idx a)).
Proof. split; reflexivity. Qed.

Lemma gt_method_spec a :
  (forall z, __gt__ a (VInt z) = Ok (CheckPoint.idx a >? z)) /\
  (forall b, __gt__ a (VCheckPoint b) = Ok (CheckPoint.idx b <? CheckPoint.idx a)).
Proof. split; reflexivity. Qed.

Lemma cp_lt_spec a b : cp_lt a b = Ok (CheckPoint.idx a <? CheckPoint.idx b).
Proof. apply (richcompare_cp_cp 997 Py_LT). Qed.

Lemma cp_gt_spec a b : cp_gt a b = Ok (CheckPoint.idx a >? CheckPoint.idx b).
Proof. apply (richcompare_cp_cp 997 Py_GT). Qed.

End Comparison.

(** ** sorted *)

Section Sorting.

Implicit Types (x : CheckPoint.t) (l s : list CheckPoint.t).

Lemma insert_sorted_cons x y l :
  insert_sorted x (y :: l) =
    if CheckPoint.idx x <? CheckPoint.idx y then Ok (x :: y :: l)
    else (r ← insert_sorted x l; Ok (y :: r)).
Proof. cbn [insert_sorted]. rewrite cp_lt_spec. reflexivity. Qed.

(** Insertion never raises, keeps the elements and keeps the order. *)
Lemma insert_sorted_total x l :
  exists r, insert_sorted x l = Ok r /\ r ≡ₚ x :: l /\
            (StronglySorted idx_le l -> StronglySorted idx_le r).
Proof.
  induction l as [|y l (r & Hr & Hperm & Hsorted)].
  - exists [x]. repeat split; [done | repeat constructor].
  - rewrite insert_sorted_cons.
    destruct (Z.ltb_spec (CheckPoint.idx x) (CheckPoint.idx y)) as [Hlt|Hge].
    + exists (x :: y :: l). repeat split; [done|].
      intros Hs. apply StronglySorted_cons. split; [|done].
      apply StronglySorted_cons in Hs as [Hall _].
      constructor; [unfold idx_le; lia|].
      eapply Forall_impl; [exact Hall|]. unfold idx_le. intros; lia.
    + rewrite Hr. exists (y :: r). repeat split.
      * rewrite Hperm. apply Permutation_swap.
      * intros Hs. apply StronglySorted_cons in Hs as [Hall Hl].
        apply StronglySorted_cons. split; [|auto].
        rewrite Hperm. constructor; [exact Hge | exact Hall].
Qed.

(** An element that is not smaller than any of a list goes to its end. *)
Lemma insert_sorted_last x l :
  Forall (fun y => idx_le y x) l -> insert_sorted x l = Ok (l ++ [x]).
Proof.
  induction 1 as [|y l Hy _ IH]; [done|].
  rewrite insert_sorted_cons, IH. unfold idx_le in Hy.
  destruct (Z.ltb_spec (CheckPoint.idx x) (CheckPoint.idx y)); [lia | done].
Qed.

Lemma sorted_snoc l x :
  sorted (l ++ [x]) = (s ← sorted l; insert_sorted x s).
Proof. unfold sorted. rewrite foldl_snoc. reflexivity. Qed.

(** [sorted] never raises; its result is a permutation of its argument,
    in non-decreasing order of index. *)
Lemma sorted_total l :
  exists s, sorted l = Ok s /\ s ≡ₚ l /\ StronglySorted idx_le s.
Proof.
  induction l as [|x l (s & Hs & Hperm & Hsorted)] using rev_ind.
  - exists []. repeat split; [done | constructor].
  - rewrite sorted_snoc, Hs.
    destruct (insert_sorted_total x s) as (r & Hr & Hp & Hso).
    exists r. split; [exact Hr|]. split; [|auto].
    rewrite Hp, Hperm. apply Permutation_cons_append.
Qed.

(** A list in non-decreasing order of index is left as it is. *)
Lemma sorted_fixed l : StronglySorted idx_le l -> sorted l = Ok l.
Proof.
  induction l as [|x l IH] using rev_ind; [done|].
  intros Hs. apply StronglySorted_app in Hs as (Hall & Hl & _).
  rewrite sorted_snoc, (IH Hl). apply insert_sorted_last.
  apply Forall_forall. intros y Hy. apply Hall; [exact Hy | set_solver].
Qed.

Lemma sorted_fixed_iff l : sorted l = Ok l <-> StronglySorted idx_le l.
Proof.
  split; [|apply sorted_fixed].
  intros H. destruct (sorted_total l) as (s & Hs & _ & Hsorted). congruence.
Qed.

(** Non-decreasing order, by positions. *)
Lemma StronglySorted_lookup l :
  StronglySorted idx_le l <->
  forall (i j : nat) a b, (i < j)%nat -> l !! i = Some a -> l !! j = Some b -> idx_le a b.
Proof.
  split.
  - induction 1 as [|x l Hs IH Hall]; intros i j a b Hij Ha Hb.
    + by rewrite lookup_nil in Ha.
    + destruct j as [|j]; [lia|]. simpl in Hb. destruct i as [|i].
      * injection Ha as <-. rewrite Forall_forall in Hall.
        apply Hall. by eapply list_elem_of_lookup_2.
      * simpl in Ha. apply (IH i j); [lia | done | done].
  - induction l as [|x l IH]; intros H; [constructor|].
    constructor.
    + apply IH. intros i j a b Hij Ha Hb. apply (H (S i) (S j)); [lia | done | done].
    + apply Forall_forall. intros y Hy.
      apply list_elem_of_lookup_1 in Hy as [j Hj]. apply (H 0%nat (S j)); [lia | done | done].
Qed.

End Sorting.

(** ** Checkpoint ordering and etappe construction *)

(** C6: the comparison of two checkpoints always answers, and answers as
    the comparison of their indices: [a < b] exactly when
    [a.idx < b.idx], [a > b] exactly when [a.idx > b.idx].  The order is
    irreflexive, transitive and total on indices (of two checkpoints one
    is smaller unless their indices are equal), and sorting a sorted
    collection of checkpoints changes nothing. *)
Theorem checkpoint_order_consistent :
  (forall a b : CheckPoint.t,
     cp_lt a b = Ok (CheckPoint.idx a <? CheckPoint.idx b) /\
     cp_gt a b = Ok (CheckPoint.idx a >? CheckPoint.idx b) /\
     (cp_lt a b = Ok true <-> CheckPoint.idx a < CheckPoint.idx b) /\
     (cp_gt a b = Ok true <-> CheckPoint.idx a > CheckPoint.idx b) /\
     (cp_lt a b = Ok true \/ cp_lt b a = Ok true \/ CheckPoint.idx a = CheckPoint.idx b)) /\
  (forall a : CheckPoint.t, cp_lt a a = Ok false) /\
  (forall a b c : CheckPoint.t,
     cp_lt a b = Ok true -> cp_lt b c = Ok true -> cp_lt a c = Ok true) /\
  (forall l : list CheckPoint.t,
     exists s, sorted l = Ok s /\ sorted s = Ok s).
Proof.
  split; [|split; [|split]].
  - intros a b. rewrite !cp_lt_spec, cp_gt_spec.
    split; [done|]. split; [done|].
    split; [|split].
    + split; [intros [= H]; lia | intros H; f_equal; lia].
    + rewrite Z.gtb_ltb. split; [intros [= H]; lia | intros H; f_equal; lia].
    + destruct (Z.lt_trichotomy (CheckPoint.idx a) (CheckPoint.idx b)) as [H|[H|H]].
      * left. f_equal. lia.
      * right; right. exact H.
      * right; left. f_equal. lia.
  - intros a. rewrite cp_lt_spec. f_equal. lia.
  - intros a b c. rewrite !cp_lt_spec. intros [= H1] [= H2]. f_equal. lia.
  - intros l. destruct (sorted_total l) as (s & Hs & _ & Hsorted).
    exists s. split; [exact Hs | by apply sorted_fixed].
Qed.

Lemma Etappe_new_unfold idx kind (S s : list CheckPoint.t) :
  sorted S = Ok s ->
  Etappe_new idx kind S =
    if bool_decide (s = S) && bool_decide (1 < length S)%nat
    then Ok (Etappe.mk idx kind S) else Raise AssertionError.
Proof.
  intros Hs. unfold Etappe_new, __post_init__. simpl. rewrite Hs. simpl.
  repeat case_bool_decide; reflexivity.
Qed.

Lemma Etappe_new_succeeds_by_order idx kind (S : list CheckPoint.t) :
  (is_ok (Etappe_new idx kind S) <-> (2 <= length S)%nat /\ StronglySorted idx_le S) /\
  (is_ok (Etappe_new idx kind S) -> Etappe_new idx kind S = Ok (Etappe.mk idx kind S)) /\
  (~ is_ok (Etappe_new idx kind S) -> Etappe_new idx kind S = Raise AssertionError).
Proof.
  destruct (sorted_total S) as (s & Hs & _ & _).
  pose proof (Etappe_new_unfold idx kind S s Hs) as Hnew.
  unfold is_ok. rewrite <- sorted_fixed_iff, Hs, Hnew. clear Hnew Hs.
  destruct (decide (s = S)) as [->|Hne];
    [rewrite (bool_decide_eq_true_2 (S = S)) by done
    |rewrite (bool_decide_eq_false_2 (s = S)) by done]; simpl.
  - destruct (decide (1 < length S)%nat) as [Hlen|Hlen];
      [rewrite bool_decide_eq_true_2 by done
      |rewrite bool_decide_eq_false_2 by done].
    + repeat split; eauto; try lia. intros Hn. exfalso. apply Hn. eauto.
    + split; [|split]; [|intros [? [=]]|done].
      split; [intros [? [=]] | intros [? _]; lia].
  - split; [|split]; [|intros [? [=]]|done].
    split; [intros [? [=]] | intros [_ [=]]; done].
Qed.

(** C1: constructing an etappe from a sequence of checkpoints succeeds
    exactly when the sequence has at least two elements and is equal to
    itself sorted, which is when its indices never decrease; it then
    holds the sequence as given.  Otherwise the construction fails, with
    an [AssertionError]. *)
Theorem Etappe_new_succeeds_iff :
  forall (idx : Z) (kind : string) (S : list CheckPoint.t),
    (is_ok (Etappe_new idx kind S) <-> (2 <= length S)%nat /\ sorted S = Ok S) /\
    (is_ok (Etappe_new idx kind S) <-> (2 <= length S)%nat /\ StronglySorted idx_le S) /\
    (is_ok (Etappe_new idx kind S) -> Etappe_new idx kind S = Ok (Etappe.mk idx kind S)) /\
    (~ is_ok (Etappe_new idx kind S) -> Etappe_new idx kind S = Raise AssertionError).
Proof.
  intros idx kind S.
  destruct (Etappe_new_succeeds_by_order idx kind S) as (Hiff & Hok & Hfail).
  split; [|split; [exact Hiff | split; [exact Hok | exact Hfail]]].
  rewrite Hiff, sorted_fixed_iff. reflexivity.
Qed.

(** C9, as stated, fails: two checkpoints with the same index, at
    positions 0 and 1, make an etappe. *)
Lemma duplicate_index_accepted :
  let a := CheckPoint.mk 1 10 "brug" false (155000, 463000) in
  let b := CheckPoint.mk 1 20 "paal" true (155100, 463050) in
  let S := [a; b] in
  S !! 0%nat = Some a /\ S !! 1%nat = Some b /\
  CheckPoint.idx a = CheckPoint.idx b /\
  Etappe_new 4 "fietsen" S = Ok (Etappe.mk 4 "fietsen" S).
Proof. vm_compute. repeat split; reflexivity. Qed.

(** C9, amended: the construction of an etappe rejects a sequence of
    checkpoints exactly when it has fewer than two elements or holds, at
    positions [i < j], two checkpoints whose indices decrease; equal
    indices are accepted. *)
Theorem Etappe_new_accepts_iff_nondecreasing :
  forall (idx : Z) (kind : string) (S : list CheckPoint.t),
    is_ok (Etappe_new idx kind S) <->
    (2 <= length S)%nat /\
    forall (i j : nat) (a b : CheckPoint.t),
      (i < j)%nat -> S !! i = Some a -> S !! j = Some b ->
      CheckPoint.idx a <= CheckPoint.idx b.
Proof.
  intros idx kind S.
  destruct (Etappe_new_succeeds_by_order idx kind S) as [H _].
  rewrite H, StronglySorted_lookup. reflexivity.
Qed.

(** ** The team roster *)

(** No line that [readlines] gives is empty: a blank line of the file is
    the one-character line of its newline. *)
Lemma readlines_nonempty content :
  Forall (fun line => String.length line <> 0%nat) (Py.readlines content).
Proof.
  induction content as [|a s IH]; simpl; [constructor|].
  case_bool_decide.
  - constructor; [simpl; lia | exact IH].
  - destruct (Py.readlines s) as [|line lines].
    + repeat constructor. simpl. lia.
    + apply Forall_cons in IH as [_ IH]. constructor; [simpl; lia | exact IH].
Qed.

(** So the test [len(line)] keeps every line, and each line of the file,
    blank or not, takes the next number. *)
Lemma _process_teams_file_numbers_every_line content :
  _process_teams_file content =
    match Py.readlines content with
    | [] => Raise AssertionError
    | lines =>
        Ok (imap (fun i line => pretty (i + 1)%nat +:+ " " +:+ Py.strip line) lines)
    end.
Proof.
  unfold _process_teams_file.
  assert (Hkeep : filter (fun line => String.length line <> 0%nat) (Py.readlines content)
                  = Py.readlines content).
  { pose proof (readlines_nonempty content) as Hall.
    induction Hall as [|line lines Hline _ IH]; [done|].
    rewrite filter_cons_True by done. by rewrite IH. }
  rewrite Hkeep. unfold Py.enumerate. rewrite fmap_imap.
  destruct (Py.readlines content) as [|line lines]; reflexivity.
Qed.

(** C3, on a file of three lines of which the second is blank: the blank
    line is kept and takes number 2, and the third line takes number 3. *)
Theorem _process_teams_file_blank_line_numbered :
  let nl := String Py.newline "" in
  _process_teams_file ("Wolf Pack" +:+ nl +:+ nl +:+ "Otters" +:+ nl)
  = Ok ["1 Wolf Pack"; "2 "; "3 Otters"].
Proof. vm_compute. reflexivity. Qed.

(** ** Strings and sequences *)

Lemma split_length c s : length (Py.split c s) = S (Py.count c s).
Proof.
  induction s as [|a s IH]; [done|]. simpl.
  case_bool_decide; simpl; [by rewrite IH|].
  destruct (Py.split c s); simpl in *; lia.
Qed.

Lemma getitem_three {A : Type} (a b c : A) :
  Py.getitem [a; b; c] (-2) = Ok b /\ Py.getitem [a; b; c] (-1) = Ok c.
Proof. split; reflexivity. Qed.

Lemma three_parts {A : Type} (l : list A) :
  length l = 3%nat -> exists a b c, l = [a; b; c].
Proof. destruct l as [|a [|b [|c [|d l]]]]; try discriminate. eauto. Qed.

Lemma mapM_result_Ok {A B : Type} (f : A -> result B) l r :
  mapM_result f l = Ok r <-> Forall2 (fun x y => f x = Ok y) l r.
Proof.
  revert r. induction l as [|x l IH]; intros r; simpl.
  - split; [intros [= <-]; constructor | by inversion 1].
  - split.
    + intros H. apply bind_is_Ok in H as (y & Hy & H).
      apply bind_is_Ok in H as (ys & Hys & [= <-]).
      constructor; [exact Hy | by apply IH].
    + inversion 1 as [|? y ? ys Hy Hys]; subst.
      apply IH in Hys. by rewrite Hy, Hys.
Qed.

(** The loop stops at the first element that raises. *)
Lemma mapM_result_first_Raise {A B : Type} (f : A -> result B) pre x post r e :
  mapM_result f pre = Ok r -> f x = Raise e ->
  mapM_result f (pre ++ x :: post) = Raise e.
Proof.
  revert r. induction pre as [|a pre IH]; intros r; simpl.
  - intros _ ->. reflexivity.
  - intros H Hx. apply bind_is_Ok in H as (y & -> & H).
    apply bind_is_Ok in H as (ys & Hys & _). simpl.
    by rewrite (IH ys Hys Hx).
Qed.

(** An element that raises makes the loop raise. *)
Lemma mapM_result_Raise {A B : Type} (f : A -> result B) l x e :
  x ∈ l -> f x = Raise e -> exists e', mapM_result f l = Raise e'.
Proof.
  intros Hin Hx. induction Hin as [x l|x y l _ IH]; simpl.
  - rewrite Hx. eauto.
  - destruct (f y); simpl; [|eauto].
    destruct (IH Hx) as [e' ->]. eauto.
Qed.

Lemma filter_none {A : Type} (P : A -> Prop) `{!forall x, Decision (P x)} (l : list A) :
  Forall (fun x => ~ P x) l -> filter P l = [].
Proof.
  induction 1 as [|x l Hx _ IH]; [done|].
  by rewrite filter_cons_False.
Qed.

Lemma as_folders_fmap fs : as_folders (FolderF <$> fs) = Some fs.
Proof.
  induction fs as [|f fs IH]; [done|].
  change (as_folders (FolderF <$> f :: fs)) with (cons f <$> as_folders (FolderF <$> fs)).
  by rewrite IH.
Qed.

(** ** Extraction of etappes *)

Section ExtractionProperties.

Variable float : string -> result spec_float.
Variable to_amersfoort : spec_float -> spec_float -> Z * Z.

Lemma make_checkpoint_idx i placemark cp :
  make_checkpoint float to_amersfoort i placemark = Ok cp -> CheckPoint.idx cp = Z.of_nat i + 1.
Proof.
  unfold make_checkpoint. intros H.
  repeat (apply bind_is_Ok in H as (? & ? & H)).
  injection H as <-. reflexivity.
Qed.

(** What a successful [from_kml_folder] has done. *)
Lemma from_kml_folder_Ok folder et :
  from_kml_folder float to_amersfoort folder = Ok et ->
  exists a b c,
    Py.split "_" (Py.str (Folder.name folder)) = [a; b; c] /\
    Py.int b = Ok (Etappe.idx et) /\
    Etappe.kind et = c /\
    mapM_result (fun '(i, placemark) => make_checkpoint float to_amersfoort i placemark)
      (Py.enumerate (Folder.features folder)) = Ok (Etappe.checkpoints et).
Proof.
  unfold from_kml_folder. intros H.
  apply bind_is_Ok in H as (u & Hcount & H).
  unfold assert in Hcount. case_bool_decide as Hc; [|discriminate].
  destruct (three_parts (Py.split "_" (Py.str (Folder.name folder)))) as (a & b & c & Hparts).
  { rewrite split_length, Hc. reflexivity. }
  rewrite Hparts in H. destruct (getitem_three a b c) as [-> ->] in H.
  simpl in H.
  apply bind_is_Ok in H as (idx & Hidx & H).
  apply bind_is_Ok in H as (cps & Hcps & H).
  destruct (Etappe_new_succeeds_by_order idx c cps) as (_ & Hok & _).
  rewrite Hok in H by (unfold is_ok; eauto). injection H as <-.
  exists a, b, c. auto.
Qed.

Lemma _process_etappes_kml_unfold ns name folders :
  _process_etappes_kml float to_amersfoort (kml_file ns name folders) =
    index_etappes <$>
      mapM_result (from_kml_folder float to_amersfoort) (filter (fun f => is_etappe_folder f = true) folders).
Proof.
  unfold _process_etappes_kml, kml_file. simpl.
  rewrite as_folders_fmap. simpl.
  destruct (mapM_result _ _); reflexivity.
Qed.

(** Where the fields of a checkpoint come from. *)
Lemma make_checkpoint_fields i placemark cp :
  make_checkpoint float to_amersfoort i placemark = Ok cp ->
  exists d point score_str score_float hidden_str hidden_int,
    cp_data placemark = Ok d /\
    Placemark.geometry placemark = Some point /\
    d !! "score" = Some score_str /\ float score_str = Ok score_float /\
    Py.int_of_float score_float = Ok (CheckPoint.score cp) /\
    d !! "hint" = Some (CheckPoint.hint cp) /\
    d !! "hidden" = Some hidden_str /\ Py.int hidden_str = Ok hidden_int /\
    CheckPoint.hidden cp = Py.bool_of_int hidden_int /\
    CheckPoint.coordinate cp = to_amersfoort (x point) (y point) /\
    CheckPoint.idx cp = Z.of_nat i + 1.
Proof.
  unfold make_checkpoint, subscript. intros H.
  destruct (cp_data placemark) as [d|] eqn:Hd; simpl in H; [|discriminate].
  destruct (Placemark.geometry placemark) as [point|] eqn:Hpoint; simpl in H; [|discriminate].
  destruct (d !! "score") as [score_str|] eqn:Hscore; simpl in H; [|discriminate].
  destruct (float score_str) as [score_float|] eqn:Hfloat; simpl in H; [|discriminate].
  destruct (Py.int_of_float score_float) as [score|] eqn:Hint; simpl in H; [|discriminate].
  destruct (d !! "hint") as [hint|] eqn:Hhint; simpl in H; [|discriminate].
  destruct (d !! "hidden") as [hidden_str|] eqn:Hhidden; simpl in H; [|discriminate].
  destruct (Py.int hidden_str) as [hidden_int|] eqn:Hhidden_int; simpl in H; [|discriminate].
  injection H as <-. simpl.
  exists d, point, score_str, score_float, hidden_str, hidden_int. repeat split; done.
Qed.

(** The loop over the enumerated features: the checkpoint at a position
    is the one made from the feature at that position. *)
Lemma enumerate_checkpoints (placemarks : list Placemark.t) (cps : list CheckPoint.t) :
  mapM_result (fun '(i, p) => make_checkpoint float to_amersfoort i p)
    (Py.enumerate placemarks) = Ok cps ->
  length cps = length placemarks /\
  forall (i : nat) (cp : CheckPoint.t),
    cps !! i = Some cp ->
    exists placemark,
      placemarks !! i = Some placemark /\
      make_checkpoint float to_amersfoort i placemark = Ok cp.
Proof.
  intros Hcps. apply mapM_result_Ok in Hcps. unfold Py.enumerate in Hcps.
  split.
  - apply Forall2_length in Hcps. by rewrite length_imap in Hcps.
  - intros i cp Hi.
    destruct (Forall2_lookup_r _ _ _ _ _ Hcps Hi) as ([j placemark] & Hj & Hmk).
    apply list_lookup_imap_Some in Hj as (p & Hp & [= -> ->]). eauto.
Qed.

(** A folder with a name of three parts, the middle one an integer, and
    two features or more that all make checkpoints, is extracted. *)
Lemma from_kml_folder_extracts folder first middle last idx cps :
  Py.split "_" (Py.str (Folder.name folder)) = [first; middle; last] ->
  Py.int middle = Ok idx ->
  mapM_result (fun '(i, p) => make_checkpoint float to_amersfoort i p)
    (Py.enumerate (Folder.features folder)) = Ok cps ->
  (2 <= length (Folder.features folder))%nat ->
  from_kml_folder float to_amersfoort folder = Ok (Etappe.mk idx last cps).
Proof.
  intros Hparts Hidx Hcps Hlen. unfold from_kml_folder.
  assert (Hcount : Py.count "_" (Py.str (Folder.name folder)) = 2%nat).
  { pose proof (split_length "_" (Py.str (Folder.name folder))) as Hsplit.
    rewrite Hparts in Hsplit. simpl in Hsplit. lia. }
  rewrite Hcount, Hparts. simpl.
  change (Py.getitem [first; middle; last] (-2)) with (Ok middle : result string).
  change (Py.getitem [first; middle; last] (-1)) with (Ok last : result string).
  simpl. rewrite Hidx. simpl. rewrite Hcps. simpl.
  destruct (enumerate_checkpoints _ _ Hcps) as [Hlength Hposition].
  assert (Hsorted : StronglySorted idx_le cps).
  { apply StronglySorted_lookup. intros i j a b Hij Ha Hb.
    destruct (Hposition i a Ha) as (pa & _ & Hpa).
    destruct (Hposition j b Hb) as (pb & _ & Hpb).
    apply make_checkpoint_idx in Hpa, Hpb. unfold idx_le. lia. }
  rewrite (Etappe_new_unfold idx last cps cps (sorted_fixed cps Hsorted)).
  rewrite !bool_decide_eq_true_2 by (done || lia). reflexivity.
Qed.

(** C2: a folder of the document is extracted as an etappe exactly when
    its name, split at the underscore, has three parts: the etappes are
    those of the folders with three-part names, one for each in the
    order of the document.  Such a folder, when the middle part of its
    name reads as an integer and its features, two or more, all make
    checkpoints, gives the etappe whose index is that integer and whose
    kind is the last part of the name, unchanged; and whenever a folder
    gives an etappe, its index and kind are these.  The other folders
    are skipped and do not raise: the result is that of the document
    without them. *)
Theorem etappe_folders_are_three_part_names :
  forall (ns : string) (name : option string) (folders : list Folder.t),
    let recognised := filter (fun f => is_etappe_folder f = true) folders in
    (forall f : Folder.t,
       is_etappe_folder f = true <->
       length (Py.split "_" (Py.str (Folder.name f))) = 3%nat) /\
    _process_etappes_kml float to_amersfoort (kml_file ns name folders) =
      index_etappes <$> mapM_result (from_kml_folder float to_amersfoort) recognised /\
    _process_etappes_kml float to_amersfoort (kml_file ns name folders) =
      _process_etappes_kml float to_amersfoort (kml_file ns name recognised) /\
    (forall (f : Folder.t) (et : Etappe.t),
       from_kml_folder float to_amersfoort f = Ok et ->
       exists first middle last : string,
         Py.split "_" (Py.str (Folder.name f)) = [first; middle; last] /\
         Py.int middle = Ok (Etappe.idx et) /\
         Etappe.kind et = last) /\
    (forall (f : Folder.t) (first middle last : string) (idx : Z)
            (cps : list CheckPoint.t),
       Py.split "_" (Py.str (Folder.name f)) = [first; middle; last] ->
       Py.int middle = Ok idx ->
       mapM_result (fun '(i, p) => make_checkpoint float to_amersfoort i p)
         (Py.enumerate (Folder.features f)) = Ok cps ->
       (2 <= length (Folder.features f))%nat ->
       from_kml_folder float to_amersfoort f = Ok (Etappe.mk idx last cps)) /\
    (forall f : Folder.t,
       is_etappe_folder f = false ->
       from_kml_folder float to_amersfoort f = Raise AssertionError).
Proof.
  intros ns name folders recognised.
  split; [|split; [|split; [|split; [|split]]]].
  - intros f. unfold is_etappe_folder. rewrite split_length, bool_decide_eq_true. lia.
  - apply _process_etappes_kml_unfold.
  - rewrite !_process_etappes_kml_unfold. subst recognised.
    rewrite list_filter_filter. do 2 f_equal.
    apply list_filter_iff. tauto.
  - intros f et H. destruct (from_kml_folder_Ok f et H) as (a & b & c & ? & ? & ? & _).
    eauto 6.
  - apply from_kml_folder_extracts.
  - intros f. unfold is_etappe_folder, from_kml_folder. intros ->. reflexivity.
Qed.

(** C4: in the etappe made from a folder there is one checkpoint for
    each feature of the folder, in the order of the document: the
    checkpoint at position [i] (from 0) is made from the feature at
    position [i], whose hint, score, hidden flag and point it carries,
    and its index is [i + 1], whatever the data of the feature hold. *)
Theorem from_kml_folder_indices_by_position :
  forall (folder : Folder.t) (et : Etappe.t),
    from_kml_folder float to_amersfoort folder = Ok et ->
    length (Etappe.checkpoints et) = length (Folder.features folder) /\
    forall (i : nat) (cp : CheckPoint.t),
      Etappe.checkpoints et !! i = Some cp ->
      CheckPoint.idx cp = Z.of_nat i + 1 /\
      exists (placemark : Placemark.t) (d : gmap string string) (point : Point)
             (score_str : string) (score_float : spec_float)
             (hidden_str : string) (hidden_int : Z),
        Folder.features folder !! i = Some placemark /\
        make_checkpoint float to_amersfoort i placemark = Ok cp /\
        cp_data placemark = Ok d /\
        Placemark.geometry placemark = Some point /\
        d !! "score" = Some score_str /\ float score_str = Ok score_float /\
        Py.int_of_float score_float = Ok (CheckPoint.score cp) /\
        d !! "hint" = Some (CheckPoint.hint cp) /\
        d !! "hidden" = Some hidden_str /\ Py.int hidden_str = Ok hidden_int /\
        CheckPoint.hidden cp = Py.bool_of_int hidden_int /\
        CheckPoint.coordinate cp = to_amersfoort (x point) (y point).
Proof.
  intros folder et H.
  destruct (from_kml_folder_Ok folder et H) as (_ & _ & _ & _ & _ & _ & Hcps).
  destruct (enumerate_checkpoints _ _ Hcps) as [Hlength Hposition].
  split; [exact Hlength|].
  intros i cp Hi.
  destruct (Hposition i cp Hi) as (placemark & Hplacemark & Hmk).
  destruct (make_checkpoint_fields i placemark cp Hmk)
    as (d & point & score_str & score_float & hidden_str & hidden_int
        & Hd & Hpoint & Hscore & Hfloat & Hint & Hhint & Hhidden & Hhidden_int
        & Hflag & Hcoordinate & Hidx).
  split; [exact Hidx|].
  exists placemark, d, point, score_str, score_float, hidden_str, hidden_int.
  repeat split; done.
Qed.

(** A placemark that lacks a required attribute cannot become a
    checkpoint, at any position. *)
Lemma make_checkpoint_missing i placemark key :
  key ∈ ["score"; "hint"; "hidden"] ->
  (forall d, cp_data placemark = Ok d -> d !! key = None) ->
  exists e, make_checkpoint float to_amersfoort i placemark = Raise e.
Proof.
  intros Hkey Hmiss. unfold make_checkpoint.
  destruct (cp_data placemark) as [d|e]; simpl; [|eauto].
  specialize (Hmiss d eq_refl). unfold subscript.
  repeat (apply elem_of_cons in Hkey as [->|Hkey]); [| | |by apply elem_of_nil in Hkey];
    rewrite ?Hmiss; simpl;
    repeat first
      [ solve [eauto]
      | match goal with
        | |- exists e, (?m ≫= _) = Raise e => destruct m; simpl
        end ].
Qed.

(** The exact error of a placemark whose first fault is a missing key. *)
Lemma make_checkpoint_KeyError i placemark d point :
  cp_data placemark = Ok d ->
  Placemark.geometry placemark = Some point ->
  (d !! "score" = None ->
   make_checkpoint float to_amersfoort i placemark = Raise (KeyError "score")) /\
  (forall v f z,
     d !! "score" = Some v -> float v = Ok f -> Py.int_of_float f = Ok z ->
     (d !! "hint" = None ->
      make_checkpoint float to_amersfoort i placemark = Raise (KeyError "hint")) /\
     (forall h,
        d !! "hint" = Some h -> d !! "hidden" = None ->
        make_checkpoint float to_amersfoort i placemark = Raise (KeyError "hidden"))).
Proof.
  intros Hd Hpoint. unfold make_checkpoint, subscript. rewrite Hd, Hpoint. simpl.
  split; [intros ->; reflexivity|].
  intros v f z -> Hf Hz. simpl. rewrite Hf. simpl. rewrite Hz. simpl.
  split; [intros ->; reflexivity|].
  intros h -> ->. reflexivity.
Qed.

(** A placemark without extended data, or without geometry, raises
    [AttributeError], whatever its attributes are: both are read before
    any attribute is looked up. *)
Lemma make_checkpoint_AttributeError i placemark :
  Placemark.extended_data placemark = None \/ Placemark.geometry placemark = None ->
  make_checkpoint float to_amersfoort i placemark = Raise AttributeError.
Proof.
  unfold make_checkpoint, cp_data. intros [H|H]; rewrite H; [reflexivity|].
  destruct (Placemark.extended_data placemark); reflexivity.
Qed.

Lemma enumerate_app {A : Type} (pre post : list A) :
  Py.enumerate (pre ++ post) =
    Py.enumerate pre ++ imap (fun i x => (length pre + i, x)%nat) post.
Proof. unfold Py.enumerate. by rewrite imap_app. Qed.

(** The error of the first placemark that fails is the error of
    [from_kml_folder]. *)
Lemma from_kml_folder_first_Raise folder first middle last idx pre placemark post cps e :
  Py.split "_" (Py.str (Folder.name folder)) = [first; middle; last] ->
  Py.int middle = Ok idx ->
  Folder.features folder = pre ++ placemark :: post ->
  mapM_result (fun '(i, p) => make_checkpoint float to_amersfoort i p)
    (Py.enumerate pre) = Ok cps ->
  make_checkpoint float to_amersfoort (length pre) placemark = Raise e ->
  from_kml_folder float to_amersfoort folder = Raise e.
Proof.
  intros Hparts Hidx Hfeatures Hpre Hp. unfold from_kml_folder.
  assert (Hcount : Py.count "_" (Py.str (Folder.name folder)) = 2%nat).
  { pose proof (split_length "_" (Py.str (Folder.name folder))) as Hlen.
    rewrite Hparts in Hlen. simpl in Hlen. lia. }
  rewrite Hcount, Hparts. simpl.
  change (Py.getitem [first; middle; last] (-2)) with (Ok middle : result string).
  change (Py.getitem [first; middle; last] (-1)) with (Ok last : result string).
  simpl. rewrite Hidx, Hfeatures, enumerate_app. simpl.
  rewrite (mapM_result_first_Raise _ _ _ _ cps e Hpre); [reflexivity|].
  by rewrite Nat.add_0_r.
Qed.

(** An etappe folder with a placemark that lacks a required attribute is
    not extracted. *)
Lemma from_kml_folder_missing folder placemark key :
  placemark ∈ Folder.features folder ->
  key ∈ ["score"; "hint"; "hidden"] ->
  (forall d, cp_data placemark = Ok d -> d !! key = None) ->
  exists e, from_kml_folder float to_amersfoort folder = Raise e.
Proof.
  intros Hin Hkey Hmiss. unfold from_kml_folder.
  apply list_elem_of_lookup_1 in Hin as [i Hi].
  destruct (make_checkpoint_missing i placemark key Hkey Hmiss) as [e He].
  destruct (mapM_result_Raise
              (fun '(i, p) => make_checkpoint float to_amersfoort i p)
              (Py.enumerate (Folder.features folder)) (i, placemark) e) as [e' He'].
  { apply list_elem_of_lookup_2 with i. unfold Py.enumerate.
    by rewrite list_lookup_imap, Hi. }
  { exact He. }
  rewrite He'.
  repeat first
    [ solve [eauto]
    | match goal with
      | |- exists e, (?m ≫= _) = Raise e => destruct m; simpl
      end ].
Qed.

(** C7, amended: when a feature of an etappe folder lacks one of the
    attributes score, hint and hidden, the folder is not extracted: an
    exception is raised.  When that feature is the first that fails, in
    a folder whose name reads well, it has extended data and a geometry,
    and the attributes looked up before the missing one read well, the
    exception is the [KeyError] of the missing key; it carries the key
    and nothing of the folder or of the feature.  When the feature has
    no extended data or no geometry, the exception is an
    [AttributeError] instead, whatever attributes are missing. *)
Theorem from_kml_folder_missing_attribute :
  (forall (folder : Folder.t) (placemark : Placemark.t) (key : string),
     placemark ∈ Folder.features folder ->
     key ∈ ["score"; "hint"; "hidden"] ->
     (forall d, cp_data placemark = Ok d -> d !! key = None) ->
     exists e, from_kml_folder float to_amersfoort folder = Raise e) /\
  (forall folder first middle last idx pre placemark post cps d point key,
     Py.split "_" (Py.str (Folder.name folder)) = [first; middle; last] ->
     Py.int middle = Ok idx ->
     Folder.features folder = pre ++ placemark :: post ->
     mapM_result (fun '(i, p) => make_checkpoint float to_amersfoort i p)
       (Py.enumerate pre) = Ok cps ->
     cp_data placemark = Ok d ->
     Placemark.geometry placemark = Some point ->
     d !! key = None ->
     (key = "score" \/
      (exists v f z, d !! "score" = Some v /\ float v = Ok f /\ Py.int_of_float f = Ok z /\
         (key = "hint" \/ (key = "hidden" /\ exists h, d !! "hint" = Some h)))) ->
     from_kml_folder float to_amersfoort folder = Raise (KeyError key)) /\
  (forall folder first middle last idx pre placemark post cps,
     Py.split "_" (Py.str (Folder.name folder)) = [first; middle; last] ->
     Py.int middle = Ok idx ->
     Folder.features folder = pre ++ placemark :: post ->
     mapM_result (fun '(i, p) => make_checkpoint float to_amersfoort i p)
       (Py.enumerate pre) = Ok cps ->
     Placemark.extended_data placemark = None \/ Placemark.geometry placemark = None ->
     from_kml_folder float to_amersfoort folder = Raise AttributeError).
Proof.
  split; [apply from_kml_folder_missing|]. split.
  - intros folder first middle last idx pre placemark post cps d point key
      Hparts Hidx Hfeatures Hpre Hd Hpoint Hmiss Hfirst.
    eapply from_kml_folder_first_Raise; eauto.
    destruct (make_checkpoint_KeyError (length pre) placemark d point Hd Hpoint)
      as [Hscore Hrest].
    destruct Hfirst as [->|(v & f & z & Hv & Hf & Hz & Hkey)]; [auto|].
    destruct (Hrest v f z Hv Hf Hz) as [Hhint Hhidden].
    destruct Hkey as [->|[-> [h Hh]]]; eauto.
  - intros folder first middle last idx pre placemark post cps
      Hparts Hidx Hfeatures Hpre Hnone.
    eapply from_kml_folder_first_Raise; eauto.
    by apply make_checkpoint_AttributeError.
Qed.

(** ** The parcour *)

(** C8, amended: from a document none of whose folders is an etappe
    folder, and a roster that is not empty, the parcour is built, with
    no etappe; no exception is raised for the empty set of etappes. *)
Theorem Parcour_init_no_etappes :
  forall (team_csv : string) (names : list string)
         (ns : string) (name : option string) (folders : list Folder.t),
    _process_teams_file team_csv = Ok names ->
    Forall (fun f => is_etappe_folder f = false) folders ->
    _process_etappes_kml float to_amersfoort (kml_file ns name folders) = Ok ∅ /\
    Parcour_init float to_amersfoort team_csv (kml_file ns name folders)
    = Ok {| team_names := names; etappes := ∅ |}.
Proof.
  intros team_csv names ns name folders Hnames Hnone.
  assert (Hets : _process_etappes_kml float to_amersfoort (kml_file ns name folders) = Ok ∅).
  { rewrite _process_etappes_kml_unfold.
    rewrite filter_none; [reflexivity|].
    eapply Forall_impl; [exact Hnone|]. intros f Hf. congruence. }
  split; [exact Hets|].
  unfold Parcour_init. rewrite Hnames, Hets. reflexivity.
Qed.

(** In the mapping of etappes, an index leads to the last etappe of
    that index. *)
Lemma index_etappes_lookup (ets : list Etappe.t) (k : Z) :
  index_etappes ets !! k = last (filter (fun et => Etappe.idx et = k) ets).
Proof.
  unfold index_etappes.
  induction ets as [|et ets IH] using rev_ind; [done|].
  rewrite foldl_snoc, filter_app.
  destruct (decide (Etappe.idx et = k)) as [Heq|Hne].
  - rewrite filter_cons_True by done. rewrite filter_nil, last_snoc.
    rewrite <- Heq. apply lookup_insert_eq.
  - rewrite filter_cons_False by done. rewrite filter_nil, app_nil_r.
    rewrite lookup_insert_ne by done. exact IH.
Qed.

(** C10: when the etappe folders of the document are all extracted, and
    the roster is not empty, the parcour is built, and its mapping
    leads from an index to the etappe of the last folder, in the order
    of the document, whose name reads as that index: of two etappes of
    the same index the earlier one is not in the mapping (unless it is
    equal to the later one). *)
Theorem Parcour_init_keeps_last_of_index :
  forall (team_csv : string) (names : list string)
         (ns : string) (name : option string) (folders : list Folder.t)
         (ets : list Etappe.t),
    _process_teams_file team_csv = Ok names ->
    mapM_result (from_kml_folder float to_amersfoort)
      (filter (fun f => is_etappe_folder f = true) folders) = Ok ets ->
    exists p : Parcour,
      Parcour_init float to_amersfoort team_csv (kml_file ns name folders) = Ok p /\
      team_names p = names /\
      (forall k : Z,
         etappes p !! k = last (filter (fun et => Etappe.idx et = k) ets)) /\
      (forall (i j : nat) (et_i et_j : Etappe.t),
         (i < j)%nat -> ets !! i = Some et_i -> ets !! j = Some et_j ->
         Etappe.idx et_i = Etappe.idx et_j ->
         (forall j' et', (j < j')%nat -> ets !! j' = Some et' ->
                         Etappe.idx et' <> Etappe.idx et_j) ->
         etappes p !! Etappe.idx et_i = Some et_j).
Proof.
  intros team_csv names ns name folders ets Hnames Hets.
  exists {| team_names := names; etappes := index_etappes ets |}.
  split; [|split; [reflexivity|split]].
  - unfold Parcour_init. rewrite Hnames, _process_etappes_kml_unfold, Hets. reflexivity.
  - intros k. apply index_etappes_lookup.
  - intros i j et_i et_j Hij Hi Hj Hidx Hlast. simpl.
    rewrite index_etappes_lookup, Hidx.
    rewrite <- (take_drop_middle ets j et_j Hj), filter_app.
    rewrite filter_cons_True by done.
    rewrite (filter_none _ (drop (S j) ets)); [apply last_snoc|].
    apply Forall_forall.
    intros et' Hin. apply list_elem_of_lookup_1 in Hin as [n Hn].
    rewrite lookup_drop in Hn. apply (Hlast (S j + n)%nat); [lia | exact Hn].
Qed.

End ExtractionProperties.

(** ** The filter of hidden checkpoints *)

Lemma not_hidden_spec placemark :
  not_hidden placemark =
    match cp_data placemark with
    | Ok d =>
        match d !! "hidden" with
        | Some v => match Py.int v with Ok z => Ok (z =? 0) | Raise e => Raise e end
        | None => Raise (KeyError "hidden")
        end
    | Raise e => Raise e
    end.
Proof.
  unfold not_hidden, subscript, Py.bool_of_int.
  destruct (cp_data placemark) as [d|e]; simpl; [|done].
  destruct (d !! "hidden") as [v|]; simpl; [|done].
  destruct (Py.int v) as [z|e]; simpl; [|done].
  by rewrite negb_involutive.
Qed.

Lemma not_hidden_Ok placemark b :
  not_hidden placemark = Ok b <->
  exists z, hidden_value placemark = Some z /\ b = (z =? 0).
Proof.
  rewrite not_hidden_spec. unfold hidden_value.
  destruct (cp_data placemark) as [d|e]; [|split; [done | by intros (? & ? & ?)]].
  destruct (d !! "hidden") as [v|]; [|split; [done | by intros (? & ? & ?)]].
  destruct (Py.int v) as [z|e]; [|split; [done | by intros (? & ? & ?)]].
  split; [intros [= <-]; eauto | intros (? & [= <-] & ->); done].
Qed.

(** The features kept of an etappe folder. *)
Lemma filterM_not_hidden_Ok (l r : list Placemark.t) :
  filterM_result not_hidden l = Ok r <->
  Forall (fun placemark => is_Some (hidden_value placemark)) l /\
  r = filter (fun placemark => hidden_value placemark = Some 0) l.
Proof.
  revert r. induction l as [|p l IH]; intros r; simpl.
  - split; [intros [= <-]; split; [constructor | done] | intros [_ ->]; done].
  - split.
    + intros H. apply bind_is_Ok in H as (b & Hb & H).
      apply bind_is_Ok in H as (r' & Hr' & [= <-]).
      apply not_hidden_Ok in Hb as (z & Hz & ->).
      apply IH in Hr' as [Hall ->].
      split; [constructor; [by rewrite Hz | exact Hall]|].
      destruct (Z.eqb_spec z 0) as [->|Hne].
      * by rewrite filter_cons_True.
      * rewrite filter_cons_False; [done|]. rewrite Hz. congruence.
    + intros [Hall ->]. apply Forall_cons in Hall as [[z Hz] Hall].
      assert (Hp : not_hidden p = Ok (z =? 0)) by (apply not_hidden_Ok; eauto).
      rewrite Hp. simpl.
      rewrite (proj2 (IH _) (conj Hall eq_refl)). simpl.
      destruct (Z.eqb_spec z 0) as [->|Hne].
      * by rewrite filter_cons_True.
      * rewrite filter_cons_False; [done|]. rewrite Hz. congruence.
Qed.

(** The body of the loop, on a folder: it succeeds exactly when the
    attribute [hidden] of each feature of an etappe folder is an integer,
    and then gives the copy. *)
Lemma strip_folder_Ok (f : Folder.t) (new : DocFeature) :
  strip_folder (FolderF f) = Ok new <->
  (is_etappe_folder f = true ->
   Forall (fun placemark => is_Some (hidden_value placemark)) (Folder.features f)) /\
  new = FolderF (visible_copy f).
Proof.
  unfold strip_folder, visible_copy.
  destruct (is_etappe_folder f).
  - split.
    + intros H. apply bind_is_Ok in H as (kept & Hkept & [= <-]).
      apply filterM_not_hidden_Ok in Hkept as [Hall ->]. auto.
    + intros [Hall ->].
      rewrite (proj2 (filterM_not_hidden_Ok _ _) (conj (Hall eq_refl) eq_refl)).
      reflexivity.
  - split; [intros [= <-]; split; [discriminate | done] | intros [_ ->]; done].
Qed.

Lemma strip_folders_Ok (folders : list Folder.t) (news : list DocFeature) :
  mapM_result strip_folder (FolderF <$> folders) = Ok news <->
  Forall (fun f => is_etappe_folder f = true ->
            Forall (fun placemark => is_Some (hidden_value placemark)) (Folder.features f))
    folders /\
  news = FolderF <$> (visible_copy <$> folders).
Proof.
  rewrite mapM_result_Ok. revert news.
  induction folders as [|f folders IH]; intros news.
  - split; [inversion 1; split; [constructor | done] | intros [_ ->]; constructor].
  - rewrite !fmap_cons. split.
    + inversion 1 as [|? new ? news' Hf Hrest]; subst.
      apply strip_folder_Ok in Hf as [Hf ->]. apply IH in Hrest as [Hall ->].
      split; [by constructor | done].
    + intros [Hall ->]. apply Forall_cons in Hall as [Hf Hall].
      constructor; [by apply strip_folder_Ok | by apply IH].
Qed.

(** C5: on a document of folders, when the attribute [hidden] of each
    feature of each etappe folder is an integer, the filter gives a
    document of the same name space and name whose folders are the
    copies of the folders of the input, in their order: an etappe
    folder (a name of three parts) with exactly the features whose
    [hidden] is zero, in their order, and any other folder with all its
    features. *)
Theorem strip_hidden_cp_from_kml_correct :
  forall (ns : string) (name : option string) (folders : list Folder.t),
    Forall (fun f => is_etappe_folder f = true ->
              Forall (fun placemark => is_Some (hidden_value placemark))
                (Folder.features f)) folders ->
    strip_hidden_cp_from_kml (kml_file ns name folders)
    = Ok (KML.mk [DocumentK (Document.mk ns name (FolderF <$> (visible_copy <$> folders)))]).
Proof.
  intros ns name folders Hall.
  unfold strip_hidden_cp_from_kml, kml_file. simpl.
  rewrite (proj2 (strip_folders_Ok folders _) (conj Hall eq_refl)).
  reflexivity.
Qed.

(** Any run of the filter that ends well, on any file, has made these
    copies. *)
Lemma strip_hidden_cp_from_kml_Ok (file : KmlFile) (new_kml : KML.t) :
  strip_hidden_cp_from_kml file = Ok new_kml ->
  exists old_doc ns name old_features new_features,
    KML.features (parsed file) !! 0%nat = Some old_doc /\
    container old_doc = Ok (ns, name, old_features) /\
    new_kml = KML.mk [DocumentK (Document.mk ns name new_features)] /\
    Forall2 (fun old new => exists f, old = FolderF f /\ new = FolderF (visible_copy f))
      old_features new_features.
Proof.
  unfold strip_hidden_cp_from_kml. intros H.
  apply bind_is_Ok in H as (u & _ & H).
  apply bind_is_Ok in H as (old_doc & Hfirst & H).
  apply bind_is_Ok in H as ([[ns name] old_features] & Hcontainer & H).
  apply bind_is_Ok in H as (new_features & Hnew & [= <-]).
  exists old_doc, ns, name, old_features, new_features.
  split; [|split; [done|split; [done|]]].
  - unfold Py.getitem in Hfirst. simpl in Hfirst.
    destruct (KML.features (parsed file)) as [|k ks]; [discriminate|].
    simpl in Hfirst. by injection Hfirst as <-.
  - apply mapM_result_Ok in Hnew.
    eapply Forall2_impl; [exact Hnew|]. intros [f|p] new Hf; [|discriminate].
    apply strip_folder_Ok in Hf as [_ ->]. eauto.
Qed.

(** * The theorems at work on documents *)

Example three_part_names :
  is_etappe_folder (Sample.folder "Stage_4_cycling" []) = true /\
  Py.split "_" "Stage_4_cycling" = ["Stage"; "4"; "cycling"] /\
  Py.int "4" = Ok 4 /\
  is_etappe_folder (Sample.folder "Notes" []) = false /\
  is_etappe_folder (Sample.folder "Stage_cycling" []) = false.
Proof. vm_compute. repeat split; reflexivity. Qed.

(** C4 on an etappe folder of three placemarks, each of which holds an
    index of its own, 7, in its data: the checkpoints take 1, 2 and 3,
    with the hints in the order of the features. *)
Lemma from_kml_folder_indices_by_position_witness :
  exists et : Etappe.t,
    from_kml_folder Sample.float Sample.to_amersfoort Sample.etappe_1 = Ok et /\
    (fun cp => (CheckPoint.idx cp, CheckPoint.hint cp)) <$> Etappe.checkpoints et
    = [(1, "Onder de brug"); (2, "Paaltje"); (3, "Hek")] /\
    (length (Etappe.checkpoints et) = length (Folder.features Sample.etappe_1) /\
     forall (i : nat) (cp : CheckPoint.t),
       Etappe.checkpoints et !! i = Some cp ->
       CheckPoint.idx cp = Z.of_nat i + 1 /\
       exists (placemark : Placemark.t) (d : gmap string string) (point : Point)
              (score_str : string) (score_float : spec_float)
              (hidden_str : string) (hidden_int : Z),
         Folder.features Sample.etappe_1 !! i = Some placemark /\
         make_checkpoint Sample.float Sample.to_amersfoort i placemark = Ok cp /\
         cp_data placemark = Ok d /\
         Placemark.geometry placemark = Some point /\
         d !! "score" = Some score_str /\ Sample.float score_str = Ok score_float /\
         Py.int_of_float score_float = Ok (CheckPoint.score cp) /\
         d !! "hint" = Some (CheckPoint.hint cp) /\
         d !! "hidden" = Some hidden_str /\ Py.int hidden_str = Ok hidden_int /\
         CheckPoint.hidden cp = Py.bool_of_int hidden_int /\
         CheckPoint.coordinate cp = Sample.to_amersfoort (x point) (y point)).
Proof.
  eexists. split; [vm_compute; reflexivity|]. split; [reflexivity|].
  apply (from_kml_folder_indices_by_position Sample.float Sample.to_amersfoort Sample.etappe_1).
  vm_compute. reflexivity.
Defined.

(** C2 on a document of a folder of notes and the folder Stage_4_cycling
    of two placemarks: the folder of notes is skipped, and the other
    gives the etappe of index 4 and kind cycling. *)
Lemma etappe_folders_are_three_part_names_witness :
  let stage :=
    Sample.folder "Stage_4_cycling"
      [Sample.placemark "start" "10" "Bankje" "0"; Sample.placemark "finish" "20" "Boom" "0"] in
  exists cps : list CheckPoint.t,
    from_kml_folder Sample.float Sample.to_amersfoort stage = Ok (Etappe.mk 4 "cycling" cps) /\
    CheckPoint.hint <$> cps = ["Bankje"; "Boom"] /\
    from_kml_folder Sample.float Sample.to_amersfoort Sample.notes = Raise AssertionError /\
    _process_etappes_kml Sample.float Sample.to_amersfoort
      (kml_file "ns" (Some "parcour") [Sample.notes; stage])
    = _process_etappes_kml Sample.float Sample.to_amersfoort
        (kml_file "ns" (Some "parcour") [stage]) /\
    _process_etappes_kml Sample.float Sample.to_amersfoort
      (kml_file "ns" (Some "parcour") [Sample.notes; stage])
    = Ok {[ 4 := Etappe.mk 4 "cycling" cps ]}.
Proof.
  intros stage.
  destruct (etappe_folders_are_three_part_names Sample.float Sample.to_amersfoort
              "ns" (Some "parcour") [Sample.notes; stage])
    as (_ & Hprocess & Hskip & _ & Hextract & Hother).
  eexists. split; [|split; [|split; [|split]]].
  - apply (Hextract stage "Stage" "4" "cycling" 4).
    + reflexivity.
    + reflexivity.
    + vm_compute. reflexivity.
    + simpl. lia.
  - reflexivity.
  - apply Hother. reflexivity.
  - exact Hskip.
  - rewrite Hprocess. vm_compute. reflexivity.
Defined.

(** C5 on a document of an etappe folder, one of whose three placemarks
    is hidden, and a folder of notes. *)
Lemma strip_hidden_cp_from_kml_correct_witness :
  Forall (fun f => is_etappe_folder f = true ->
            Forall (fun placemark => is_Some (hidden_value placemark))
              (Folder.features f)) [Sample.etappe_1; Sample.notes] /\
  strip_hidden_cp_from_kml (kml_file "ns" (Some "parcour") [Sample.etappe_1; Sample.notes])
  = Ok (KML.mk [DocumentK (Document.mk "ns" (Some "parcour")
                  (FolderF <$> (visible_copy <$> [Sample.etappe_1; Sample.notes])))]).
Proof.
  assert (H : Forall (fun f => is_etappe_folder f = true ->
                        Forall (fun placemark => is_Some (hidden_value placemark))
                          (Folder.features f)) [Sample.etappe_1; Sample.notes]).
  { repeat apply Forall_cons_2; [| |apply Forall_nil_2].
    - intros _. repeat apply Forall_cons_2; try apply Forall_nil_2;
        vm_compute; eexists; reflexivity.
    - intros Hnotes. vm_compute in Hnotes. discriminate. }
  split; [exact H|].
  exact (strip_hidden_cp_from_kml_correct "ns" (Some "parcour")
           [Sample.etappe_1; Sample.notes] H).
Defined.

Example strip_hidden_cp_from_kml_sample :
  Folder.features (visible_copy Sample.etappe_1)
  = [Sample.placemark "start" "10" "Onder de brug" "0";
     Sample.placemark "finish" "30" "Hek" "0"] /\
  Folder.features (visible_copy Sample.notes) = Folder.features Sample.notes.
Proof. vm_compute. split; reflexivity. Qed.

(** C7, as stated, fails: two etappe folders of different names, whose
    placemarks without a hint have different names and positions, raise
    the same exception, which holds the key only. *)
Lemma missing_attribute_error_holds_key_only :
  let folder_a :=
    Sample.folder "Etappe_1_hardlopen" [Sample.placemark_without_hint "brug"] in
  let folder_b :=
    Sample.folder "Etappe_2_kano"
      [Sample.placemark "steiger" "10" "Paaltje" "0"; Sample.placemark_without_hint "sluis"] in
  Folder.name folder_a <> Folder.name folder_b /\
  from_kml_folder Sample.float Sample.to_amersfoort folder_a = Raise (KeyError "hint") /\
  from_kml_folder Sample.float Sample.to_amersfoort folder_b = Raise (KeyError "hint").
Proof. cbv zeta. split; [discriminate | split; vm_compute; reflexivity]. Qed.

(** C7, amended, on the second of these folders: the placemark without a
    hint comes after one that is well formed, and the exception is the
    [KeyError] of the hint. *)
Lemma from_kml_folder_missing_attribute_witness :
  from_kml_folder Sample.float Sample.to_amersfoort
    (Sample.folder "Etappe_2_kano"
       [Sample.placemark "steiger" "10" "Paaltje" "0"; Sample.placemark_without_hint "sluis"])
  = Raise (KeyError "hint").
Proof.
  destruct (from_kml_folder_missing_attribute Sample.float Sample.to_amersfoort)
    as (_ & H & _).
  eapply (H _ "Etappe" "2" "kano" 2
            [Sample.placemark "steiger" "10" "Paaltje" "0"]
            (Sample.placemark_without_hint "sluis") []).
  - reflexivity.
  - reflexivity.
  - reflexivity.
  - vm_compute. reflexivity.
  - vm_compute. reflexivity.
  - reflexivity.
  - vm_compute. reflexivity.
  - right. exists "10". eexists. exists 10.
    split; [vm_compute; reflexivity|].
    split; [vm_compute; reflexivity|].
    split; [vm_compute; reflexivity|].
    left. reflexivity.
Defined.

(** A placemark that has neither a hint nor a geometry: the exception is
    that of the geometry, which is read first. *)
Example from_kml_folder_without_geometry :
  from_kml_folder Sample.float Sample.to_amersfoort
    (Sample.folder "Etappe_2_kano"
       [Sample.placemark "steiger" "10" "Paaltje" "0";
        Placemark.mk (Some "sluis")
          (Some [ {| data_name := "score"; data_value := "10" |};
                  {| data_name := "hidden"; data_value := "0" |} ])
          None])
  = Raise AttributeError.
Proof. vm_compute. reflexivity. Qed.

(** C8, as stated, fails: a document whose only folder is a folder of
    notes makes a parcour with no etappe. *)
Lemma Parcour_init_empty_etappes :
  Parcour_init Sample.float Sample.to_amersfoort "Wolf Pack" (Sample.file [Sample.notes])
  = Ok {| team_names := ["1 Wolf Pack"]; etappes := ∅ |}.
Proof. vm_compute. reflexivity. Qed.

Lemma Parcour_init_no_etappes_witness :
  _process_teams_file "Wolf Pack" = Ok ["1 Wolf Pack"] /\
  Forall (fun f => is_etappe_folder f = false) [Sample.notes] /\
  _process_etappes_kml Sample.float Sample.to_amersfoort
    (kml_file "ns" (Some "parcour") [Sample.notes]) = Ok ∅ /\
  Parcour_init Sample.float Sample.to_amersfoort "Wolf Pack"
    (kml_file "ns" (Some "parcour") [Sample.notes])
  = Ok {| team_names := ["1 Wolf Pack"]; etappes := ∅ |}.
Proof.
  assert (Hnames : _process_teams_file "Wolf Pack" = Ok ["1 Wolf Pack"])
    by (vm_compute; reflexivity).
  assert (Hnone : Forall (fun f => is_etappe_folder f = false) [Sample.notes])
    by (repeat constructor).
  split; [exact Hnames|]. split; [exact Hnone|].
  exact (Parcour_init_no_etappes Sample.float Sample.to_amersfoort "Wolf Pack"
           ["1 Wolf Pack"] "ns" (Some "parcour") [Sample.notes] Hnames Hnone).
Defined.

(** C10 on a document with two etappe folders of index 1, around a
    folder of notes: the parcour is built and index 1 leads to the second
    of them, of kind fietsen. *)
Lemma Parcour_init_keeps_last_of_index_witness :
  exists ets : list Etappe.t,
    _process_teams_file "Wolf Pack" = Ok ["1 Wolf Pack"] /\
    mapM_result (from_kml_folder Sample.float Sample.to_amersfoort)
      (filter (fun f => is_etappe_folder f = true)
         [Sample.etappe_1; Sample.notes; Sample.etappe_1_again]) = Ok ets /\
    Etappe.kind <$> ets = ["hardlopen"; "fietsen"] /\
    exists p : Parcour,
      Parcour_init Sample.float Sample.to_amersfoort "Wolf Pack"
        (kml_file "ns" (Some "parcour")
           [Sample.etappe_1; Sample.notes; Sample.etappe_1_again]) = Ok p /\
      team_names p = ["1 Wolf Pack"] /\
      (forall k : Z,
         etappes p !! k = last (filter (fun et => Etappe.idx et = k) ets)) /\
      (forall (i j : nat) (et_i et_j : Etappe.t),
         (i < j)%nat -> ets !! i = Some et_i -> ets !! j = Some et_j ->
         Etappe.idx et_i = Etappe.idx et_j ->
         (forall j' et', (j < j')%nat -> ets !! j' = Some et' ->
                         Etappe.idx et' <> Etappe.idx et_j) ->
         etappes p !! Etappe.idx et_i = Some et_j).
Proof.
  eexists.
  split; [vm_compute; reflexivity|].
  split; [vm_compute; reflexivity|].
  split; [reflexivity|].
  apply (Parcour_init_keeps_last_of_index Sample.float Sample.to_amersfoort
           "Wolf Pack" ["1 Wolf Pack"] "ns" (Some "parcour")
           [Sample.etappe_1; Sample.notes; Sample.etappe_1_again]).
  - vm_compute. reflexivity.
  - vm_compute. reflexivity.
Defined.

Example Parcour_init_duplicate_index :
  (fun p => (size (etappes p), Etappe.kind <$> etappes p !! 1, team_names p)) <$>
    Parcour_init Sample.float Sample.to_amersfoort "Wolf Pack"
      (Sample.file [Sample.etappe_1; Sample.notes; Sample.etappe_1_again])
  = Ok (1%nat, Some "fietsen", ["1 Wolf Pack"]).
Proof. vm_compute. reflexivity. Qed.

(** * Further properties *)

(** ** The team roster *)

Lemma readlines_line (line rest : string) :
  Py.count Py.newline line = 0%nat ->
  Py.readlines (line +:+ String Py.newline rest)
  = (line +:+ String Py.newline "") :: Py.readlines rest.
Proof.
  induction line as [|a line IH]; simpl.
  - intros _. reflexivity.
  - case_bool_decide as Ha; [discriminate|]. simpl. intros Hcount.
    rewrite (IH Hcount). reflexivity.
Qed.

Lemma readlines_unlines (lines : list string) :
  Forall (fun line => Py.count Py.newline line = 0%nat) lines ->
  Py.readlines (unlines lines) = (fun line => line +:+ String Py.newline "") <$> lines.
Proof.
  induction 1 as [|line lines Hline _ IH]; [done|].
  simpl. rewrite (readlines_line _ _ Hline), IH. reflexivity.
Qed.

Lemma readlines_nil content : Py.readlines content = [] <-> content = "".
Proof.
  split; [|intros ->; done].
  destruct content as [|a s]; [done|]. simpl.
  case_bool_decide; [discriminate|]. destruct (Py.readlines s); discriminate.
Qed.

Lemma rstrip_snoc_space (space : ascii -> bool) (s : string) (c : ascii) :
  space c = true -> Py.rstrip space (s +:+ String c "") = Py.rstrip space s.
Proof.
  intros Hc. induction s as [|a s IH]; simpl.
  - by rewrite Hc.
  - by rewrite IH.
Qed.

Lemma lstrip_snoc_space (space : ascii -> bool) (s : string) (c : ascii) :
  space c = true ->
  Py.lstrip space (s +:+ String c "") =
    if bool_decide (Py.lstrip space s = "") then "" else Py.lstrip space s +:+ String c "".
Proof.
  intros Hc. induction s as [|a s IH]; simpl.
  - by rewrite Hc.
  - destruct (space a); [exact IH|]. reflexivity.
Qed.

(** The newline that ends a line does not show in the name. *)
Lemma strip_line (line : string) :
  Py.strip (line +:+ String Py.newline "") = Py.strip line.
Proof.
  unfold Py.strip. rewrite lstrip_snoc_space by reflexivity.
  case_bool_decide as Hempty.
  - by rewrite Hempty.
  - by apply rstrip_snoc_space.
Qed.

(** X1: from a file of one or more lines, each ended by a newline, the
    roster has one name for each line, in their order: the number of the
    line from 1, a space, and the text of the line without the white
    space around it. *)
Theorem _process_teams_file_unlines :
  forall lines : list string,
    lines <> [] ->
    Forall (fun line => Py.count Py.newline line = 0%nat) lines ->
    _process_teams_file (unlines lines)
    = Ok (imap (fun i line => pretty (i + 1)%nat +:+ " " +:+ Py.strip line) lines) /\
    (Forall (fun line => Py.strip line = line) lines ->
     _process_teams_file (unlines lines)
     = Ok (imap (fun i line => pretty (i + 1)%nat +:+ " " +:+ line) lines)).
Proof.
  intros lines Hne Hlines.
  assert (H : _process_teams_file (unlines lines)
              = Ok (imap (fun i line => pretty (i + 1)%nat +:+ " " +:+ Py.strip line) lines)).
  { rewrite _process_teams_file_numbers_every_line.
    destruct (Py.readlines (unlines lines)) as [|r rs] eqn:Hr.
    - rewrite (readlines_unlines _ Hlines) in Hr. by destruct lines.
    - rewrite <- Hr, (readlines_unlines _ Hlines), imap_fmap. f_equal.
      apply imap_ext. intros i x _. simpl. by rewrite strip_line. }
  split; [exact H|].
  intros Hstripped. rewrite H. f_equal. apply imap_ext. intros i x Hx. simpl.
  rewrite Forall_forall in Hstripped.
  rewrite (Hstripped x); [done|]. by eapply list_elem_of_lookup_2.
Qed.

Lemma _process_teams_file_cases (content : string) :
  (content = "" /\ _process_teams_file content = Raise AssertionError) \/
  (content <> "" /\
   exists names,
     _process_teams_file content = Ok names /\
     names <> [] /\
     length names = length (Py.readlines content)).
Proof.
  rewrite _process_teams_file_numbers_every_line.
  destruct (Py.readlines content) as [|line lines] eqn:Hlines.
  - apply readlines_nil in Hlines as ->. by left.
  - right. split; [intros ->; discriminate|].
    eexists. split; [reflexivity|]. split; [discriminate|]. by rewrite length_imap.
Qed.

(** X2: the roster loader fails on the empty file, with an
    [AssertionError], and on no other: of any other text it makes as many
    names as the text has lines. *)
Theorem _process_teams_file_fails_iff_empty :
  forall content : string,
    (_process_teams_file content = Raise AssertionError <-> content = "") /\
    (content <> "" ->
     exists names,
       _process_teams_file content = Ok names /\
       names <> [] /\
       length names = length (Py.readlines content)).
Proof.
  intros content.
  destruct (_process_teams_file_cases content)
    as [[-> Hfail]|[Hne (names & Hnames & Hnonempty & Hlen)]].
  - split; [done|]. by intros [].
  - split; [|eauto]. rewrite Hnames. split; [discriminate | done].
Qed.

(** ** Sorting checkpoints *)

(** Insertion into a sorted list keeps the order of the checkpoints of
    each index: the new one comes after those of its index. *)
Lemma insert_sorted_stable (x : CheckPoint.t) (l r : list CheckPoint.t) (k : Z) :
  StronglySorted idx_le l -> insert_sorted x l = Ok r ->
  filter (fun c => CheckPoint.idx c = k) r
  = filter (fun c => CheckPoint.idx c = k) l ++ filter (fun c => CheckPoint.idx c = k) [x].
Proof.
  revert r. induction l as [|y l IH]; intros r Hsorted.
  - intros [= <-]. reflexivity.
  - rewrite insert_sorted_cons.
    apply StronglySorted_cons in Hsorted as [Hall Hsorted].
    destruct (Z.ltb_spec (CheckPoint.idx x) (CheckPoint.idx y)) as [Hlt|Hge].
    + intros [= <-].
      destruct (decide (CheckPoint.idx x = k)) as [Hx|Hx].
      * rewrite (filter_cons_True _ x) by done.
        rewrite (filter_none _ (y :: l)).
        { rewrite filter_cons_True by done. reflexivity. }
        constructor; [lia|]. eapply Forall_impl; [exact Hall|].
        unfold idx_le. intros; lia.
      * rewrite (filter_cons_False _ x) by done.
        rewrite (filter_cons_False _ x [] ) by done. rewrite filter_nil, app_nil_r.
        reflexivity.
    + intros H. apply bind_is_Ok in H as (r' & Hr' & [= <-]).
      rewrite !filter_cons, (IH r' Hsorted Hr').
      destruct (decide (CheckPoint.idx y = k)); reflexivity.
Qed.

(** X3: sorting a sequence of checkpoints never raises; the result holds
    the same checkpoints, in non-decreasing order of index, and the
    checkpoints of one index stay in the order they had.  So of two
    checkpoints given in decreasing order the sorted sequence is the
    other way round. *)
Theorem sorted_checkpoints :
  (forall l : list CheckPoint.t,
     exists s,
       sorted l = Ok s /\ s ≡ₚ l /\ StronglySorted idx_le s /\
       forall k : Z,
         filter (fun c => CheckPoint.idx c = k) s = filter (fun c => CheckPoint.idx c = k) l) /\
  (forall a b : CheckPoint.t,
     CheckPoint.idx a < CheckPoint.idx b ->
     cp_lt a b = Ok true /\ cp_gt b a = Ok true /\ sorted [b; a] = Ok [a; b]).
Proof.
  split.
  - intros l. induction l as [|x l (s & Hs & Hperm & Hsorted & Hstable)] using rev_ind.
    + exists []. repeat split; [done | constructor].
    + rewrite sorted_snoc, Hs.
      destruct (insert_sorted_total x s) as (r & Hr & Hp & Hso).
      exists r. split; [exact Hr|]. split; [|split; [auto|]].
      * rewrite Hp, Hperm. apply Permutation_cons_append.
      * intros k. rewrite (insert_sorted_stable x s r k Hsorted Hr).
        rewrite Hstable, filter_app. reflexivity.
  - intros a b Hlt. rewrite cp_lt_spec, cp_gt_spec.
    split; [f_equal; lia|]. split; [f_equal; lia|].
    change (sorted [b; a]) with (insert_sorted a [b]). rewrite insert_sorted_cons.
    destruct (Z.ltb_spec (CheckPoint.idx a) (CheckPoint.idx b)); [reflexivity | lia].
Qed.

(** ** The order of etappes *)

Lemma richcompare_object_index (fuel : nat) (op : cmpop) (x y : object) :
  richcompare_object (S (S (S fuel))) op x y
  = Ok (int_cmp op (object_index x) (object_index y)).
Proof.
  destruct x, y, op; cbn; rewrite ?Z.gtb_ltb; reflexivity.
Qed.

Lemma richcompare_object_of_value (fuel : nat) (op : cmpop) (v w : value) :
  richcompare_object fuel op (object_of_value v) (object_of_value w)
  = richcompare fuel op v w.
Proof.
  revert op v w. induction fuel as [|fuel IH]; intros op v w; [done|].
  destruct v as [z|c], w as [z'|c']; cbn; rewrite <- ?IH; reflexivity.
Qed.

(** X4: a comparison by [<] or [>] between any two of an integer, a
    checkpoint and an etappe never raises: it is the comparison of the
    integers, a checkpoint and an etappe standing for their indices.  In
    particular etappes are ordered by index, an etappe compares with a
    checkpoint, and the comparison of two checkpoints is the one
    [sorted] uses. *)
Theorem richcompare_object_by_index :
  (forall (op : cmpop) (x y : object),
     richcompare_object recursion_limit op x y
     = Ok (int_cmp op (object_index x) (object_index y))) /\
  (forall (self : Etappe.t) (other : object),
     EtappeOps.__lt__ self other = Ok (Etappe.idx self <? object_index other) /\
     EtappeOps.__gt__ self other = Ok (Etappe.idx self >? object_index other)) /\
  (forall a b : CheckPoint.t,
     richcompare_object recursion_limit Py_LT (OCheckPoint a) (OCheckPoint b) = cp_lt a b /\
     richcompare_object recursion_limit Py_GT (OCheckPoint a) (OCheckPoint b) = cp_gt a b).
Proof.
  split; [|split].
  - intros op x y. apply (richcompare_object_index 997).
  - intros self other. unfold EtappeOps.__lt__, EtappeOps.__gt__.
    split.
    + exact (richcompare_object_index 997 Py_LT (OInt (Etappe.idx self)) other).
    + exact (richcompare_object_index 997 Py_GT (OInt (Etappe.idx self)) other).
  - intros a b. unfold cp_lt, cp_gt.
    split; apply (richcompare_object_of_value _ _ (VCheckPoint a) (VCheckPoint b)).
Qed.

(** ** The etappe as a collection *)

Lemma getitem_in_range {A : Type} (l : list A) (key : Z) :
  - Z.of_nat (length l) <= key < Z.of_nat (length l) ->
  exists x, Py.getitem l key = Ok x /\
            l !! Z.to_nat (key mod Z.of_nat (length l)) = Some x.
Proof.
  intros Hrange. unfold Py.getitem.
  set (n := Z.of_nat (length l)) in *.
  destruct (Z.ltb_spec key 0) as [Hneg|Hpos].
  - assert (Hmod : key mod n = key + n).
    { symmetry. apply (Z.mod_unique key n (-1)); lia. }
    rewrite Hmod.
    destruct (Z.leb_spec 0 (key + n)); [|lia].
    destruct (Z.ltb_spec (key + n) n); [|lia]. simpl.
    destruct (lookup_lt_is_Some_2 l (Z.to_nat (key + n))) as [x Hx]; [lia|].
    rewrite Hx. eauto.
  - rewrite Z.mod_small by lia.
    destruct (Z.leb_spec 0 key); [|lia].
    destruct (Z.ltb_spec key n); [|lia]. simpl.
    destruct (lookup_lt_is_Some_2 l (Z.to_nat key)) as [x Hx]; [lia|].
    rewrite Hx. eauto.
Qed.

Lemma getitem_out_of_range {A : Type} (l : list A) (key : Z) :
  ~ (- Z.of_nat (length l) <= key < Z.of_nat (length l)) ->
  Py.getitem l key = Raise IndexError.
Proof.
  intros Hrange. unfold Py.getitem.
  destruct (Z.ltb_spec key 0);
    [destruct (Z.leb_spec 0 (key + Z.of_nat (length l)))
    |destruct (Z.leb_spec 0 key)]; simpl; try reflexivity.
  - destruct (Z.ltb_spec (key + Z.of_nat (length l)) (Z.of_nat (length l))); [lia | done].
  - destruct (Z.ltb_spec key (Z.of_nat (length l))); [lia | done].
Qed.

Lemma getitem_negative {A : Type} (l : list A) (key : Z) :
  - Z.of_nat (length l) <= key < 0 ->
  Py.getitem l key = Py.getitem l (key + Z.of_nat (length l)).
Proof.
  intros Hrange. unfold Py.getitem.
  destruct (Z.ltb_spec key 0); [|lia].
  destruct (Z.ltb_spec (key + Z.of_nat (length l)) 0); [lia|]. reflexivity.
Qed.

Lemma getitem_of_nat {A : Type} (l : list A) (i : nat) (x : A) :
  Py.getitem l (Z.of_nat i) = Ok x <-> l !! i = Some x.
Proof.
  unfold Py.getitem.
  destruct (Z.ltb_spec (Z.of_nat i) 0); [lia|].
  destruct (Z.leb_spec 0 (Z.of_nat i)); [|lia]. simpl.
  rewrite Nat2Z.id.
  destruct (Z.ltb_spec (Z.of_nat i) (Z.of_nat (length l))) as [Hlt|Hge].
  - destruct (l !! i) as [y|] eqn:Hy; split; intros [= <-]; done.
  - split; [done|]. intros Hx. apply lookup_lt_Some in Hx. lia.
Qed.

(** X5: an etappe behaves as the sequence of its checkpoints.  Indexing
    answers exactly on the keys from [-len] to [len - 1] and raises
    [IndexError] on the others; a negative key counts from the end; the
    iterator yields [len] checkpoints, the one at position [i] being the
    one that the key [i] gives; and an object is in the etappe exactly
    when it is a checkpoint that some key gives. *)
Theorem Etappe_collection :
  forall self : Etappe.t,
    let n := Z.of_nat (EtappeOps.__len__ self) in
    length (EtappeOps.__iter__ self) = EtappeOps.__len__ self /\
    (forall key : Z, is_ok (EtappeOps.__getitem__ self key) <-> - n <= key < n) /\
    (forall key : Z,
       ~ (- n <= key < n) -> EtappeOps.__getitem__ self key = Raise IndexError) /\
    (forall key : Z,
       - n <= key < 0 ->
       EtappeOps.__getitem__ self key = EtappeOps.__getitem__ self (key + n)) /\
    (forall (i : nat) (cp : CheckPoint.t),
       EtappeOps.__iter__ self !! i = Some cp <->
       EtappeOps.__getitem__ self (Z.of_nat i) = Ok cp) /\
    (forall x : object,
       EtappeOps.__contains__ self x = true <->
       exists (c : CheckPoint.t) (key : Z),
         x = OCheckPoint c /\ 0 <= key /\ EtappeOps.__getitem__ self key = Ok c).
Proof.
  intros self n. unfold EtappeOps.__len__, EtappeOps.__iter__, EtappeOps.__getitem__ in *.
  split; [reflexivity|]. split; [|split; [|split; [|split]]].
  - intros key. split.
    + intros [cp Hcp]. destruct (decide (- n <= key < n)) as [|Hout]; [done|].
      rewrite (getitem_out_of_range _ _ Hout) in Hcp. discriminate.
    + intros Hin. destruct (getitem_in_range _ _ Hin) as (x & Hx & _). by exists x.
  - apply getitem_out_of_range.
  - apply getitem_negative.
  - intros i cp. symmetry. apply getitem_of_nat.
  - intros x. unfold EtappeOps.__contains__. split.
    + destruct x as [z|c|e]; try discriminate.
      rewrite bool_decide_eq_true. intros Hin.
      apply list_elem_of_lookup_1 in Hin as [i Hi].
      exists c, (Z.of_nat i). split; [done|]. split; [lia|]. by apply getitem_of_nat.
    + intros (c & key & -> & Hkey & Hc). rewrite bool_decide_eq_true.
      rewrite <- (Z2Nat.id key Hkey) in Hc. apply getitem_of_nat in Hc.
      by eapply list_elem_of_lookup_2.
Qed.

(** ** The attributes of a placemark *)

Lemma foldl_insert_lookup {A : Type} (key val : A -> string) (l : list A) (k : string) :
  foldl (fun d e => <[key e := val e]> d) (∅ : gmap string string) l !! k
  = val <$> last (filter (fun e => key e = k) l).
Proof.
  induction l as [|e l IH] using rev_ind; [done|].
  rewrite foldl_snoc, filter_app.
  destruct (decide (key e = k)) as [Heq|Hne].
  - rewrite filter_cons_True by done. rewrite filter_nil, last_snoc.
    rewrite <- Heq. apply lookup_insert_eq.
  - rewrite filter_cons_False by done. rewrite filter_nil, app_nil_r.
    rewrite lookup_insert_ne by done. exact IH.
Qed.

Lemma lower_ascii_idemp (a : ascii) :
  Py.lower_ascii (Py.lower_ascii a) = Py.lower_ascii a.
Proof. destruct a as [[] [] [] [] [] [] [] []]; reflexivity. Qed.

Lemma lower_idemp (s : string) : Py.lower (Py.lower s) = Py.lower s.
Proof.
  induction s as [|a s IH]; [done|]. simpl. by rewrite lower_ascii_idemp, IH.
Qed.

(** X6: the attributes of a placemark are looked up without regard to
    the case of their names, and of several values under one name the
    last counts: a key leads to the value of the last element of the
    extended data whose name, in lower case, is the key.  So no key with
    a capital letter is ever found; and a placemark without extended
    data raises [AttributeError]. *)
Theorem cp_data_lookup :
  forall placemark : Placemark.t,
    match Placemark.extended_data placemark with
    | None => cp_data placemark = Raise AttributeError
    | Some elements =>
        exists d,
          cp_data placemark = Ok d /\
          (forall k : string,
             d !! k = data_value <$>
                        last (filter (fun e => Py.lower (data_name e) = k) elements)) /\
          (forall (k v : string), d !! k = Some v -> Py.lower k = k)
    end.
Proof.
  intros placemark. unfold cp_data.
  destruct (Placemark.extended_data placemark) as [elements|]; [|reflexivity].
  eexists. split; [reflexivity|].
  assert (Hlookup : forall k,
            foldl (fun d e => <[Py.lower (data_name e) := data_value e]> d)
              (∅ : gmap string string) elements !! k
            = data_value <$> last (filter (fun e => Py.lower (data_name e) = k) elements)).
  { intros k. apply (foldl_insert_lookup (fun e => Py.lower (data_name e)) data_value). }
  split; [exact Hlookup|].
  intros k v. rewrite Hlookup.
  destruct (last _) as [e|] eqn:Hlast; [|discriminate]. intros _.
  apply last_Some_elem_of, list_elem_of_filter in Hlast as [<- _].
  apply lower_idemp.
Qed.

(** ** Extraction, further *)

Lemma split_join (c : ascii) (s : string) : join c (Py.split c s) = s.
Proof.
  induction s as [|a s IH]; [done|]. simpl.
  pose proof (split_length c s) as Hlen.
  case_bool_decide as Ha.
  - subst a. destruct (Py.split c s) as [|part parts]; [discriminate|].
    simpl in *. by rewrite IH.
  - destruct (Py.split c s) as [|part parts]; [discriminate|].
    rewrite <- IH. destruct parts; reflexivity.
Qed.

Lemma split_no_separator (c : ascii) (s : string) :
  Forall (fun part => Py.count c part = 0%nat) (Py.split c s).
Proof.
  induction s as [|a s IH]; simpl; [by repeat constructor|].
  case_bool_decide as Ha.
  - by constructor.
  - destruct (Py.split c s) as [|part parts].
    + repeat constructor. simpl. by rewrite bool_decide_eq_false_2.
    + apply Forall_cons in IH as [Hpart Hparts]. constructor; [|done].
      simpl. by rewrite bool_decide_eq_false_2.
Qed.

Lemma mapM_result_is_ok {A B : Type} (f : A -> result B) (l : list A) :
  is_ok (mapM_result f l) <-> Forall (fun x => is_ok (f x)) l.
Proof.
  induction l as [|x l IH]; simpl.
  - split; [constructor | by exists []].
  - rewrite Forall_cons, <- IH. unfold is_ok. split.
    + intros [r Hr]. apply bind_is_Ok in Hr as (y & Hy & Hr).
      apply bind_is_Ok in Hr as (ys & Hys & _). eauto.
    + intros [[y ->] [ys ->]]. simpl. eauto.
Qed.

Lemma renumber_cons (start : nat) (cp : CheckPoint.t) (cps : list CheckPoint.t) :
  renumber start (cp :: cps)
  = set_idx (Z.of_nat start + 1) cp :: renumber (S start) cps.
Proof.
  unfold renumber. rewrite imap_cons. f_equal.
  - by rewrite Nat.add_0_r.
  - apply imap_ext. intros i x _. simpl. f_equal. lia.
Qed.

Lemma renumber_lookup (start : nat) (cps : list CheckPoint.t) (i : nat) :
  renumber start cps !! i = set_idx (Z.of_nat (start + i) + 1) <$> cps !! i.
Proof. unfold renumber. by rewrite list_lookup_imap. Qed.

Lemma renumber_sorted (start : nat) (cps : list CheckPoint.t) :
  StronglySorted idx_le (renumber start cps).
Proof.
  apply StronglySorted_lookup. intros i j a b Hij.
  rewrite !renumber_lookup.
  destruct (cps !! i); [|discriminate]. destruct (cps !! j); [|discriminate].
  intros [= <-] [= <-]. unfold idx_le. simpl. lia.
Qed.

Section FurtherExtraction.

Variable float : string -> result spec_float.
Variable to_amersfoort : spec_float -> spec_float -> Z * Z.

(** The position of a placemark only sets the index of its checkpoint. *)
Lemma make_checkpoint_reindex (i : nat) (placemark : Placemark.t) :
  make_checkpoint float to_amersfoort i placemark
  = set_idx (Z.of_nat i + 1) <$> make_checkpoint float to_amersfoort 0 placemark.
Proof.
  unfold make_checkpoint.
  repeat match goal with
         | |- context [mbind _ ?m] => destruct m; simpl; try reflexivity
         end.
Qed.

(** The loop of [from_kml_folder]: the checkpoints of the placemarks,
    numbered by position. *)
Lemma mapM_make_checkpoint (start : nat) (placemarks : list Placemark.t) :
  mapM_result (fun '(i, p) => make_checkpoint float to_amersfoort i p)
    (imap (fun i p => ((start + i)%nat, p)) placemarks)
  = renumber start <$> mapM_result (make_checkpoint float to_amersfoort 0%nat) placemarks.
Proof.
  revert start. induction placemarks as [|p ps IH]; intros start; [done|].
  rewrite imap_cons. cbn [mapM_result].
  rewrite (imap_ext _ (fun i p => ((S start + i)%nat, p))) by (intros; simpl; f_equal; lia).
  rewrite IH, Nat.add_0_r, make_checkpoint_reindex.
  destruct (make_checkpoint float to_amersfoort 0 p) as [cp|e]; simpl; [|done].
  destruct (mapM_result _ ps) as [cps|e]; simpl; [|done].
  rewrite renumber_cons. reflexivity.
Qed.

Lemma mapM_make_checkpoint_enumerate (placemarks : list Placemark.t) :
  mapM_result (fun '(i, p) => make_checkpoint float to_amersfoort i p)
    (imap (fun i p => (i, p)) placemarks)
  = renumber 0 <$> mapM_result (make_checkpoint float to_amersfoort 0%nat) placemarks.
Proof. exact (mapM_make_checkpoint 0 placemarks). Qed.

(** [from_kml_folder] on a folder with a name of three parts: the
    assertion on the order of the checkpoints never fails, for they are
    numbered by position. *)
Lemma from_kml_folder_eq (folder : Folder.t) (first middle last : string) :
  Py.split "_" (Py.str (Folder.name folder)) = [first; middle; last] ->
  from_kml_folder float to_amersfoort folder =
    (idx ← Py.int middle;
     cps ← mapM_result (make_checkpoint float to_amersfoort 0%nat) (Folder.features folder);
     if bool_decide (2 <= length (Folder.features folder))%nat
     then Ok (Etappe.mk idx last (renumber 0 cps))
     else Raise AssertionError).
Proof.
  intros Hparts. unfold from_kml_folder.
  assert (Hcount : Py.count "_" (Py.str (Folder.name folder)) = 2%nat).
  { pose proof (split_length "_" (Py.str (Folder.name folder))) as Hlen.
    rewrite Hparts in Hlen. simpl in Hlen. lia. }
  rewrite Hcount, Hparts. simpl.
  change (Py.getitem [first; middle; last] (-2)) with (Ok middle : result string).
  change (Py.getitem [first; middle; last] (-1)) with (Ok last : result string).
  simpl. destruct (Py.int middle) as [idx|e]; simpl; [|done].
  unfold Py.enumerate.
  rewrite (mapM_make_checkpoint_enumerate (Folder.features folder)).
  destruct (mapM_result _ (Folder.features folder)) as [cps|e] eqn:Hcps; simpl; [|done].
  rewrite (Etappe_new_unfold idx last _ _ (sorted_fixed _ (renumber_sorted 0 cps))).
  rewrite bool_decide_eq_true_2 by done. simpl.
  apply mapM_result_Ok, Forall2_length in Hcps.
  unfold renumber. rewrite length_imap, <- Hcps.
  repeat case_bool_decide; try reflexivity; lia.
Qed.

Lemma from_kml_folder_not_etappe (folder : Folder.t) :
  is_etappe_folder folder = false ->
  from_kml_folder float to_amersfoort folder = Raise AssertionError.
Proof.
  unfold is_etappe_folder, from_kml_folder. intros ->. reflexivity.
Qed.

Lemma etappe_folder_parts (folder : Folder.t) :
  is_etappe_folder folder = true ->
  exists first middle last,
    Py.split "_" (Py.str (Folder.name folder)) = [first; middle; last].
Proof.
  unfold is_etappe_folder. rewrite bool_decide_eq_true. intros Hcount.
  apply three_parts. by rewrite split_length, Hcount.
Qed.

(** What a placemark needs to become a checkpoint. *)
Lemma make_checkpoint_is_ok_iff (i : nat) (placemark : Placemark.t) :
  is_ok (make_checkpoint float to_amersfoort i placemark) <->
  exists d score x hint hidden point,
    cp_data placemark = Ok d /\
    d !! "score" = Some score /\ float score = Ok x /\ is_ok (Py.int_of_float x) /\
    d !! "hint" = Some hint /\
    d !! "hidden" = Some hidden /\ is_ok (Py.int hidden) /\
    Placemark.geometry placemark = Some point.
Proof.
  unfold make_checkpoint, subscript, is_ok. split.
  - intros [cp H].
    destruct (cp_data placemark) as [d|] eqn:Hd; simpl in H; [|discriminate].
    destruct (Placemark.geometry placemark) as [point|] eqn:Hpoint; simpl in H; [|discriminate].
    destruct (d !! "score") as [score|] eqn:Hscore; simpl in H; [|discriminate].
    destruct (float score) as [x|] eqn:Hx; simpl in H; [|discriminate].
    destruct (Py.int_of_float x) as [z|] eqn:Hz; simpl in H; [|discriminate].
    destruct (d !! "hint") as [hint|] eqn:Hhint; simpl in H; [|discriminate].
    destruct (d !! "hidden") as [hidden|] eqn:Hhidden; simpl in H; [|discriminate].
    destruct (Py.int hidden) as [hz|] eqn:Hhz; simpl in H; [|discriminate].
    exists d, score, x, hint, hidden, point. eauto 10.
  - intros (d & score & x & hint & hidden & point
            & Hd & Hscore & Hx & [z Hz] & Hhint & Hhidden & [hz Hhz] & Hpoint).
    rewrite Hd. simpl. rewrite Hpoint. simpl.
    rewrite Hscore. simpl. rewrite Hx. simpl. rewrite Hz. simpl.
    rewrite Hhint. simpl. rewrite Hhidden. simpl. rewrite Hhz. simpl. eauto.
Qed.

(** X7: a folder is extracted as an etappe exactly when its name has
    three parts of which the middle one reads as an integer, each of its
    features can be made a checkpoint (extended data with a score that
    reads as a finite number, a hint, a hidden flag that reads as an
    integer, and a point), and it has two features or more.  With fewer
    features, and all else well, it raises [AssertionError], as does a
    folder whose name has not three parts. *)
Theorem from_kml_folder_succeeds_iff :
  forall folder : Folder.t,
    (is_ok (from_kml_folder float to_amersfoort folder) <->
     exists first middle last,
       Py.split "_" (Py.str (Folder.name folder)) = [first; middle; last] /\
       is_ok (Py.int middle) /\
       Forall (fun placemark =>
                 exists d score x hint hidden point,
                   cp_data placemark = Ok d /\
                   d !! "score" = Some score /\ float score = Ok x /\
                   is_ok (Py.int_of_float x) /\
                   d !! "hint" = Some hint /\
                   d !! "hidden" = Some hidden /\ is_ok (Py.int hidden) /\
                   Placemark.geometry placemark = Some point)
         (Folder.features folder) /\
       (2 <= length (Folder.features folder))%nat) /\
    (forall first middle last,
       Py.split "_" (Py.str (Folder.name folder)) = [first; middle; last] ->
       is_ok (Py.int middle) ->
       is_ok (mapM_result (make_checkpoint float to_amersfoort 0%nat) (Folder.features folder)) ->
       (length (Folder.features folder) < 2)%nat ->
       from_kml_folder float to_amersfoort folder = Raise AssertionError) /\
    (is_etappe_folder folder = false ->
     from_kml_folder float to_amersfoort folder = Raise AssertionError).
Proof.
  intros folder. split; [|split].
  - assert (Hall : forall l,
              Forall (fun p => is_ok (make_checkpoint float to_amersfoort 0 p)) l <->
              Forall (fun placemark =>
                 exists d score x hint hidden point,
                   cp_data placemark = Ok d /\
                   d !! "score" = Some score /\ float score = Ok x /\
                   is_ok (Py.int_of_float x) /\
                   d !! "hint" = Some hint /\
                   d !! "hidden" = Some hidden /\ is_ok (Py.int hidden) /\
                   Placemark.geometry placemark = Some point) l).
    { intros l. apply Forall_proper; [|done]. intros p. apply make_checkpoint_is_ok_iff. }
    assert (Hmain :
      is_ok (from_kml_folder float to_amersfoort folder) <->
      exists first middle last,
        Py.split "_" (Py.str (Folder.name folder)) = [first; middle; last] /\
        is_ok (Py.int middle) /\
        is_ok (mapM_result (make_checkpoint float to_amersfoort 0%nat)
                 (Folder.features folder)) /\
        (2 <= length (Folder.features folder))%nat);
      [|rewrite Hmain; split; intros (a & b & c & H1 & H2 & H3 & H4);
        exists a, b, c; repeat split; try done;
        [apply Hall, mapM_result_is_ok, H3 | apply mapM_result_is_ok, Hall, H3]].
    destruct (is_etappe_folder folder) eqn:Hfolder.
    + destruct (etappe_folder_parts folder Hfolder) as (a & b & c & Hparts).
      rewrite (from_kml_folder_eq folder a b c Hparts), Hparts. unfold is_ok.
      split.
      * intros [et H].
        destruct (Py.int b) as [idx|] eqn:Hidx; simpl in H; [|discriminate].
        destruct (mapM_result _ _) as [cps|]; simpl in H; [|discriminate].
        case_bool_decide; [|discriminate]. exists a, b, c. eauto 8.
      * intros (? & ? & ? & [= <- <- <-] & [idx ->] & [cps ->] & Hlen). simpl.
        rewrite bool_decide_eq_true_2 by done. eauto.
    + rewrite (from_kml_folder_not_etappe folder Hfolder). split.
      * intros [? [=]].
      * intros (a & b & c & Hparts & _). exfalso.
        unfold is_etappe_folder in Hfolder. apply bool_decide_eq_false in Hfolder.
        apply Hfolder. pose proof (split_length "_" (Py.str (Folder.name folder))) as Hlen.
        rewrite Hparts in Hlen. simpl in Hlen. lia.
  - intros a b c Hparts [idx Hidx] [cps Hcps] Hlen.
    rewrite (from_kml_folder_eq folder a b c Hparts), Hidx. simpl. rewrite Hcps. simpl.
    rewrite bool_decide_eq_false_2 by lia. reflexivity.
  - apply from_kml_folder_not_etappe.
Qed.

Lemma renumber_indices (start : nat) (cps : list CheckPoint.t) :
  CheckPoint.idx <$> renumber start cps
  = seqZ (Z.of_nat start + 1) (Z.of_nat (length cps)).
Proof.
  apply list_eq. intros i.
  rewrite list_lookup_fmap, renumber_lookup.
  destruct (decide (i < length cps)%nat) as [Hlt|Hge].
  - destruct (lookup_lt_is_Some_2 cps i Hlt) as [cp ->]. simpl.
    rewrite lookup_seqZ_lt by lia. f_equal. lia.
  - rewrite lookup_ge_None_2 by lia. simpl.
    rewrite lookup_seqZ_ge by lia. reflexivity.
Qed.

(** What a successful [from_kml_folder] has made. *)
Lemma from_kml_folder_shape (folder : Folder.t) (et : Etappe.t) :
  from_kml_folder float to_amersfoort folder = Ok et ->
  exists first middle cps,
    Py.split "_" (Py.str (Folder.name folder)) = [first; middle; Etappe.kind et] /\
    Py.int middle = Ok (Etappe.idx et) /\
    mapM_result (make_checkpoint float to_amersfoort 0%nat) (Folder.features folder) = Ok cps /\
    Etappe.checkpoints et = renumber 0 cps /\
    length cps = length (Folder.features folder) /\
    (2 <= length (Folder.features folder))%nat.
Proof.
  intros H.
  destruct (is_etappe_folder folder) eqn:Hfolder;
    [|rewrite (from_kml_folder_not_etappe folder Hfolder) in H; discriminate].
  destruct (etappe_folder_parts folder Hfolder) as (a & b & c & Hparts).
  rewrite (from_kml_folder_eq folder a b c Hparts) in H.
  destruct (Py.int b) as [idx|] eqn:Hidx; simpl in H; [|discriminate].
  destruct (mapM_result _ _) as [cps|] eqn:Hcps; simpl in H; [|discriminate].
  case_bool_decide as Hlen; [|discriminate]. injection H as <-. simpl.
  exists a, b, cps. repeat split; try done.
  apply mapM_result_Ok, Forall2_length in Hcps. done.
Qed.

(** X8: an etappe extracted from a folder has as many checkpoints as
    the folder has features, two or more, and their indices are
    1, 2, ..., in this order, without gap or repetition; so the key
    [key], from [-len] to [len - 1], gives the checkpoint of index
    [key mod len + 1]. *)
Theorem from_kml_folder_checkpoints :
  forall (folder : Folder.t) (et : Etappe.t),
    from_kml_folder float to_amersfoort folder = Ok et ->
    EtappeOps.__len__ et = length (Folder.features folder) /\
    (2 <= EtappeOps.__len__ et)%nat /\
    CheckPoint.idx <$> EtappeOps.__iter__ et = seqZ 1 (Z.of_nat (EtappeOps.__len__ et)) /\
    NoDup (CheckPoint.idx <$> Etappe.checkpoints et) /\
    forall key : Z,
      - Z.of_nat (EtappeOps.__len__ et) <= key < Z.of_nat (EtappeOps.__len__ et) ->
      exists cp,
        EtappeOps.__getitem__ et key = Ok cp /\
        CheckPoint.idx cp = key mod Z.of_nat (EtappeOps.__len__ et) + 1.
Proof.
  intros folder et H.
  destruct (from_kml_folder_shape folder et H)
    as (first & middle & cps & _ & _ & _ & Hcps & Hlen & Htwo).
  unfold EtappeOps.__len__, EtappeOps.__iter__, EtappeOps.__getitem__.
  assert (Hn : length (Etappe.checkpoints et) = length (Folder.features folder)).
  { rewrite Hcps. unfold renumber. by rewrite length_imap. }
  assert (Hidx : CheckPoint.idx <$> Etappe.checkpoints et
                 = seqZ 1 (Z.of_nat (length (Etappe.checkpoints et)))).
  { rewrite Hn, <- Hlen, Hcps. apply renumber_indices. }
  split; [exact Hn|]. split; [lia|]. split; [exact Hidx|].
  split; [rewrite Hidx; apply NoDup_seqZ|].
  intros key Hkey.
  destruct (getitem_in_range _ _ Hkey) as (cp & Hcp & Hlookup).
  exists cp. split; [exact Hcp|].
  assert (Hcp_idx : (CheckPoint.idx <$> Etappe.checkpoints et)
                      !! Z.to_nat (key mod Z.of_nat (length (Etappe.checkpoints et)))
                    = Some (CheckPoint.idx cp)).
  { by rewrite list_lookup_fmap, Hlookup. }
  rewrite Hidx in Hcp_idx. apply lookup_seqZ in Hcp_idx as [-> _].
  pose proof (Z.mod_pos_bound key (Z.of_nat (length (Etappe.checkpoints et)))). lia.
Qed.

(** X9: the name of an extracted folder is made of three parts without
    underscore, joined by underscores; the last is the kind of the
    etappe, unchanged, and the middle one reads as its index. *)
Theorem from_kml_folder_name :
  forall (folder : Folder.t) (et : Etappe.t),
    from_kml_folder float to_amersfoort folder = Ok et ->
    exists first middle : string,
      Py.str (Folder.name folder) = first +:+ "_" +:+ middle +:+ "_" +:+ Etappe.kind et /\
      Py.count "_" first = 0%nat /\
      Py.count "_" middle = 0%nat /\
      Py.count "_" (Etappe.kind et) = 0%nat /\
      Py.int middle = Ok (Etappe.idx et).
Proof.
  intros folder et H.
  destruct (from_kml_folder_shape folder et H)
    as (first & middle & cps & Hparts & Hidx & _).
  exists first, middle.
  pose proof (split_join "_" (Py.str (Folder.name folder))) as Hjoin.
  pose proof (split_no_separator "_" (Py.str (Folder.name folder))) as Hsep.
  rewrite Hparts in Hjoin, Hsep.
  apply Forall_cons in Hsep as [H1 Hsep]. apply Forall_cons in Hsep as [H2 Hsep].
  apply Forall_cons in Hsep as [H3 _].
  repeat split; done.
Qed.

(** ** The parcour, further *)

Lemma _process_etappes_kml_Ok (file : KmlFile) (m : gmap Z Etappe.t) :
  _process_etappes_kml float to_amersfoort file = Ok m ->
  exists doc rest folders ets,
    suffix file = ".kml" /\
    KML.features (parsed file) = DocumentK doc :: rest /\
    Document.features doc = FolderF <$> folders /\
    mapM_result (from_kml_folder float to_amersfoort)
      (filter (fun f => is_etappe_folder f = true) folders) = Ok ets /\
    m = index_etappes ets.
Proof.
  unfold _process_etappes_kml. intros H.
  apply bind_is_Ok in H as (u & Hsuffix & H).
  unfold assert in Hsuffix. case_bool_decide as Hs; [|discriminate].
  apply bind_is_Ok in H as (first & Hfirst & H).
  apply bind_is_Ok in H as (doc & Hdoc & H).
  apply bind_is_Ok in H as (folders & Hfolders & H).
  apply bind_is_Ok in H as (ets & Hets & [= <-]).
  destruct first as [d| |]; try discriminate. injection Hdoc as ->.
  unfold Py.getitem in Hfirst. simpl in Hfirst.
  destruct (KML.features (parsed file)) as [|k rest] eqn:Hfeatures; [discriminate|].
  simpl in Hfirst. injection Hfirst as ->.
  destruct (as_folders (Document.features doc)) as [fs|] eqn:Hfs; [|discriminate].
  injection Hfolders as ->.
  exists doc, rest, folders, ets. repeat split; try done.
  clear -Hfs. revert folders Hfs.
  induction (Document.features doc) as [|[f|p] l IH]; intros folders Hfs.
  - by injection Hfs as <-.
  - simpl in Hfs. destruct (as_folders l) as [fs|]; [|discriminate].
    injection Hfs as <-. rewrite fmap_cons. f_equal. by apply IH.
  - discriminate.
Qed.

(** X10: in a parcour that has been built, the roster is not empty and
    has a name for each line of the team file; and an index of the
    mapping leads to an etappe of that index, with two checkpoints or
    more, of indices 1, 2, ... in this order. *)
Theorem Parcour_init_invariant :
  forall (team_csv : string) (file : KmlFile) (p : Parcour),
    Parcour_init float to_amersfoort team_csv file = Ok p ->
    team_names p <> [] /\
    length (team_names p) = length (Py.readlines team_csv) /\
    forall (k : Z) (et : Etappe.t),
      etappes p !! k = Some et ->
      Etappe.idx et = k /\
      (2 <= length (Etappe.checkpoints et))%nat /\
      CheckPoint.idx <$> Etappe.checkpoints et
      = seqZ 1 (Z.of_nat (length (Etappe.checkpoints et))).
Proof.
  intros team_csv file p H. unfold Parcour_init in H.
  apply bind_is_Ok in H as (names & Hnames & H).
  apply bind_is_Ok in H as (m & Hm & [= <-]). simpl.
  destruct (_process_teams_file_cases team_csv)
    as [[_ Hfail]|[_ (names' & Hnames' & Hne & Hlen)]]; [congruence|].
  rewrite Hnames in Hnames'. injection Hnames' as <-.
  split; [exact Hne|]. split; [exact Hlen|].
  intros k et Hk.
  destruct (_process_etappes_kml_Ok file m Hm) as (doc & rest & folders & ets & _ & _ & _ & Hets & ->).
  rewrite index_etappes_lookup in Hk.
  apply last_Some_elem_of, list_elem_of_filter in Hk as [Hidx Hin].
  split; [exact Hidx|].
  apply mapM_result_Ok in Hets.
  apply list_elem_of_lookup_1 in Hin as [i Hi].
  destruct (Forall2_lookup_r _ _ _ _ _ Hets Hi) as (folder & _ & Hfolder).
  destruct (from_kml_folder_shape folder et Hfolder)
    as (first & middle & cps & _ & _ & _ & Hcps & Hlen' & Htwo).
  rewrite Hcps. unfold renumber at 1 3. rewrite length_imap.
  split; [lia|]. apply renumber_indices.
Qed.

Lemma dom_index_etappes (ets : list Etappe.t) :
  dom (index_etappes ets) =@{gset Z} list_to_set (Etappe.idx <$> ets).
Proof.
  unfold index_etappes. induction ets as [|et ets IH] using rev_ind.
  - simpl. apply dom_empty_L.
  - rewrite foldl_snoc, dom_insert_L, IH, fmap_app, list_to_set_app_L.
    rewrite fmap_cons, fmap_nil, list_to_set_cons, list_to_set_nil.
    rewrite (right_id_L ∅ (∪)). apply (comm_L (∪)).
Qed.

Lemma size_list_to_set_le (l : list Z) :
  (size (list_to_set l : gset Z) <= length l)%nat /\
  (size (list_to_set l : gset Z) = length l <-> NoDup l).
Proof.
  induction l as [|x l [IHle IHeq]].
  - rewrite list_to_set_nil, size_empty. split; [done|]. split; [constructor | done].
  - rewrite list_to_set_cons, NoDup_cons. simpl.
    destruct (decide (x ∈ l)) as [Hin|Hnotin].
    + replace ({[x]} ∪ list_to_set l : gset Z) with (list_to_set l : gset Z).
      * split; [lia|]. split; [lia | tauto].
      * symmetry. apply subseteq_union_1_L, singleton_subseteq_l.
        by apply elem_of_list_to_set.
    + rewrite size_union by (rewrite disjoint_singleton_l, elem_of_list_to_set; done).
      rewrite size_singleton. split; [lia|].
      rewrite <- IHeq. split; [intros; split; [done | lia] | intros [_ ?]; lia].
Qed.

(** X11: the indices of the etappes of a parcour are those that the
    names of the etappe folders of the document read as; the parcour has
    at most one etappe for each such folder, and exactly one for each
    when no two of the names read as the same index. *)
Theorem Parcour_init_indices :
  forall (team_csv : string) (file : KmlFile) (p : Parcour),
    Parcour_init float to_amersfoort team_csv file = Ok p ->
    exists doc rest folders ets,
      KML.features (parsed file) = DocumentK doc :: rest /\
      Document.features doc = FolderF <$> folders /\
      Forall2 (fun f et => from_kml_folder float to_amersfoort f = Ok et)
        (filter (fun f => is_etappe_folder f = true) folders) ets /\
      dom (etappes p) =@{gset Z} list_to_set (Etappe.idx <$> ets) /\
      (size (etappes p) <= length (filter (fun f => is_etappe_folder f = true) folders))%nat /\
      (size (etappes p) = length (filter (fun f => is_etappe_folder f = true) folders)
       <-> NoDup (Etappe.idx <$> ets)).
Proof.
  intros team_csv file p H. unfold Parcour_init in H.
  apply bind_is_Ok in H as (names & _ & H).
  apply bind_is_Ok in H as (m & Hm & [= <-]). simpl.
  destruct (_process_etappes_kml_Ok file m Hm)
    as (doc & rest & folders & ets & _ & Hfeatures & Hdoc & Hets & ->).
  apply mapM_result_Ok in Hets.
  exists doc, rest, folders, ets.
  split; [exact Hfeatures|]. split; [exact Hdoc|]. split; [exact Hets|].
  split; [apply dom_index_etappes|].
  rewrite <- (size_dom (D := gset Z)), dom_index_etappes.
  rewrite (Forall2_length _ _ _ Hets), <- (length_fmap Etappe.idx ets).
  apply size_list_to_set_le.
Qed.

(** ** Extraction and the filter together *)

Lemma make_checkpoint_hidden_value (i : nat) (placemark : Placemark.t) (cp : CheckPoint.t) :
  make_checkpoint float to_amersfoort i placemark = Ok cp ->
  exists z, hidden_value placemark = Some z /\ CheckPoint.hidden cp = negb (z =? 0).
Proof.
  unfold make_checkpoint, hidden_value, subscript. intros H.
  destruct (cp_data placemark) as [d|]; simpl in H; [|discriminate].
  destruct (Placemark.geometry placemark) as [point|]; simpl in H; [|discriminate].
  destruct (d !! "score") as [score|]; simpl in H; [|discriminate].
  destruct (float score) as [x|]; simpl in H; [|discriminate].
  destruct (Py.int_of_float x) as [z|]; simpl in H; [|discriminate].
  destruct (d !! "hint") as [hint|]; simpl in H; [|discriminate].
  destruct (d !! "hidden") as [hidden|]; simpl in H; [|discriminate].
  destruct (Py.int hidden) as [hz|]; simpl in H; [|discriminate].
  injection H as <-. exists hz. split; reflexivity.
Qed.

(** X12: a file from which the etappes can be extracted can be
    filtered: what [_process_etappes_kml] accepts,
    [strip_hidden_cp_from_kml] accepts. *)
Theorem strip_hidden_cp_from_kml_accepts_extracted :
  forall (file : KmlFile) (m : gmap Z Etappe.t),
    _process_etappes_kml float to_amersfoort file = Ok m ->
    exists doc rest folders,
      KML.features (parsed file) = DocumentK doc :: rest /\
      Document.features doc = FolderF <$> folders /\
      strip_hidden_cp_from_kml file
      = Ok (KML.mk [DocumentK (Document.mk (Document.ns doc) (Document.name doc)
                                 (FolderF <$> (visible_copy <$> folders)))]).
Proof.
  intros file m Hm.
  destruct (_process_etappes_kml_Ok file m Hm)
    as (doc & rest & folders & ets & Hsuffix & Hfeatures & Hdoc & Hets & _).
  exists doc, rest, folders. split; [exact Hfeatures|]. split; [exact Hdoc|].
  unfold strip_hidden_cp_from_kml. rewrite Hsuffix, Hfeatures. simpl. rewrite Hdoc.
  assert (Hall : Forall (fun f => is_etappe_folder f = true ->
                   Forall (fun placemark => is_Some (hidden_value placemark))
                     (Folder.features f)) folders).
  { apply Forall_forall. intros f Hf Hetappe.
    apply mapM_result_Ok in Hets.
    assert (Hin : f ∈ filter (fun f => is_etappe_folder f = true) folders)
      by (apply list_elem_of_filter; done).
    apply list_elem_of_lookup_1 in Hin as [i Hi].
    destruct (Forall2_lookup_l _ _ _ _ _ Hets Hi) as (et & _ & Het).
    destruct (from_kml_folder_shape f et Het) as (_ & _ & cps & _ & _ & Hcps & _).
    apply mapM_result_Ok in Hcps. apply Forall_forall. intros placemark Hp.
    apply list_elem_of_lookup_1 in Hp as [j Hj].
    destruct (Forall2_lookup_l _ _ _ _ _ Hcps Hj) as (cp & _ & Hcp).
    destruct (make_checkpoint_hidden_value 0 placemark cp Hcp) as (z & -> & _). eauto. }
  rewrite (proj2 (strip_folders_Ok folders _) (conj Hall eq_refl)). reflexivity.
Qed.

Lemma mapM_make_checkpoint_visible (placemarks : list Placemark.t) (cps : list CheckPoint.t) :
  mapM_result (make_checkpoint float to_amersfoort 0%nat) placemarks = Ok cps ->
  mapM_result (make_checkpoint float to_amersfoort 0%nat)
    (filter (fun placemark => hidden_value placemark = Some 0) placemarks)
  = Ok (filter (fun cp => CheckPoint.hidden cp = false) cps).
Proof.
  revert cps. induction placemarks as [|p ps IH]; intros cps H.
  - by injection H as <-.
  - simpl in H. apply bind_is_Ok in H as (cp & Hcp & H).
    apply bind_is_Ok in H as (cps' & Hcps' & [= <-]).
    destruct (make_checkpoint_hidden_value 0 p cp Hcp) as (z & Hz & Hhidden).
    destruct (Z.eqb_spec z 0) as [->|Hne]; simpl in Hhidden.
    + rewrite filter_cons_True by done. rewrite (filter_cons_True _ cp) by done.
      simpl. by rewrite Hcp, (IH cps' Hcps').
    + rewrite filter_cons_False by (rewrite Hz; congruence).
      rewrite (filter_cons_False _ cp) by (rewrite Hhidden; done).
      by apply IH.
Qed.

Lemma renumber_filter_renumber (start start' : nat) (cps : list CheckPoint.t) :
  renumber start (filter (fun cp => CheckPoint.hidden cp = false) (renumber start' cps))
  = renumber start (filter (fun cp => CheckPoint.hidden cp = false) cps).
Proof.
  revert start start'. induction cps as [|cp cps IH]; intros start start'; [done|].
  rewrite renumber_cons, !filter_cons. simpl.
  destruct (decide (CheckPoint.hidden cp = false)).
  - rewrite !renumber_cons, IH. reflexivity.
  - apply IH.
Qed.

Lemma length_filter_renumber (start : nat) (cps : list CheckPoint.t) :
  length (filter (fun cp => CheckPoint.hidden cp = false) (renumber start cps))
  = length (filter (fun cp => CheckPoint.hidden cp = false) cps).
Proof.
  revert start. induction cps as [|cp cps IH]; intros start; [done|].
  rewrite renumber_cons, !filter_cons. simpl.
  destruct (decide (CheckPoint.hidden cp = false)); simpl; by rewrite IH.
Qed.

(** X13: extraction after the filter.  Of a folder that is extracted as
    an etappe, the filtered copy is extracted as the etappe of the same
    index and kind whose checkpoints are those that are not hidden,
    numbered again from 1, if two or more are left; with fewer left, the
    copy is not extracted: [AssertionError]. *)
Theorem from_kml_folder_visible_copy :
  forall (folder : Folder.t) (et : Etappe.t),
    from_kml_folder float to_amersfoort folder = Ok et ->
    from_kml_folder float to_amersfoort (visible_copy folder) =
      let visible := filter (fun cp => CheckPoint.hidden cp = false) (Etappe.checkpoints et) in
      if bool_decide (2 <= length visible)%nat
      then Ok (Etappe.mk (Etappe.idx et) (Etappe.kind et) (renumber 0 visible))
      else Raise AssertionError.
Proof.
  intros folder et H.
  destruct (from_kml_folder_shape folder et H)
    as (first & middle & cps & Hparts & Hidx & Hcps & Hcheckpoints & _ & _).
  assert (Hetappe : is_etappe_folder folder = true).
  { unfold is_etappe_folder. apply bool_decide_eq_true.
    pose proof (split_length "_" (Py.str (Folder.name folder))) as Hlen.
    rewrite Hparts in Hlen. simpl in Hlen. lia. }
  pose proof (mapM_make_checkpoint_visible _ _ Hcps) as Hvisible.
  rewrite (from_kml_folder_eq (visible_copy folder) first middle (Etappe.kind et) Hparts).
  rewrite Hidx. simpl. rewrite Hetappe, Hvisible. simpl.
  rewrite Hcheckpoints, renumber_filter_renumber, length_filter_renumber.
  apply mapM_result_Ok, Forall2_length in Hvisible. rewrite Hvisible. reflexivity.
Qed.

End FurtherExtraction.

(** ** The filter, further *)

Lemma visible_copy_idemp (f : Folder.t) : visible_copy (visible_copy f) = visible_copy f.
Proof.
  unfold visible_copy. simpl.
  change (is_etappe_folder (Folder.mk (Folder.ns f) (Folder.id f) (Folder.name f)
            (Folder.description f) (Folder.styles f) (Folder.styleUrl f) _))
    with (is_etappe_folder f).
  destruct (is_etappe_folder f); [|reflexivity].
  f_equal. rewrite list_filter_filter. apply list_filter_iff. tauto.
Qed.

Lemma visible_copy_not_hidden (f : Folder.t) :
  is_etappe_folder (visible_copy f) = true ->
  Forall (fun placemark => hidden_value placemark = Some 0)
    (Folder.features (visible_copy f)).
Proof.
  unfold visible_copy. simpl.
  change (is_etappe_folder (Folder.mk (Folder.ns f) (Folder.id f) (Folder.name f)
            (Folder.description f) (Folder.styles f) (Folder.styleUrl f) _))
    with (is_etappe_folder f).
  intros ->. apply Forall_forall. intros placemark Hin.
  by apply list_elem_of_filter in Hin as [? _].
Qed.

(** X14: the filter is idempotent: a document that it has made, it
    leaves as it is; for in the etappe folders of that document the
    attribute [hidden] of every feature is zero. *)
Theorem strip_hidden_cp_from_kml_idempotent :
  forall (file : KmlFile) (new_kml : KML.t),
    strip_hidden_cp_from_kml file = Ok new_kml ->
    strip_hidden_cp_from_kml {| suffix := suffix file; parsed := new_kml |} = Ok new_kml /\
    exists ns name folders,
      new_kml = KML.mk [DocumentK (Document.mk ns name (FolderF <$> folders))] /\
      Forall (fun f => is_etappe_folder f = true ->
                Forall (fun placemark => hidden_value placemark = Some 0)
                  (Folder.features f)) folders.
Proof.
  intros file new_kml H.
  assert (Hsuffix : suffix file = ".kml").
  { unfold strip_hidden_cp_from_kml in H. apply bind_is_Ok in H as (u & Hs & _).
    unfold assert in Hs. by case_bool_decide. }
  destruct (strip_hidden_cp_from_kml_Ok file new_kml H)
    as (old_doc & ns & name & old_features & new_features & _ & _ & -> & Hcopies).
  assert (Hfolders : exists folders, new_features = FolderF <$> (visible_copy <$> folders)).
  { clear -Hcopies. induction Hcopies as [|old new olds news (f & -> & ->) _ (fs & ->)].
    - by exists [].
    - by exists (f :: fs). }
  destruct Hfolders as [folders ->].
  assert (Hall : Forall (fun f => is_etappe_folder f = true ->
                   Forall (fun placemark => hidden_value placemark = Some 0)
                     (Folder.features f)) (visible_copy <$> folders)).
  { apply Forall_fmap, Forall_forall. intros f _. exact (visible_copy_not_hidden f). }
  split; [|eauto].
  unfold strip_hidden_cp_from_kml. simpl. rewrite Hsuffix. simpl.
  assert (Hsome : Forall (fun f => is_etappe_folder f = true ->
                    Forall (fun placemark => is_Some (hidden_value placemark))
                      (Folder.features f)) (visible_copy <$> folders)).
  { eapply Forall_impl; [exact Hall|]. intros f Hf Hetappe.
    eapply Forall_impl; [exact (Hf Hetappe)|]. intros placemark ->. eauto. }
  assert (Hid : visible_copy <$> (visible_copy <$> folders) = visible_copy <$> folders).
  { rewrite <- list_fmap_compose. apply list_fmap_ext. intros i f _. apply visible_copy_idemp. }
  rewrite (proj2 (strip_folders_Ok (visible_copy <$> folders) _) (conj Hsome eq_refl)).
  rewrite Hid. reflexivity.
Qed.

(** X15: on a document of folders the filter succeeds exactly when, in
    each etappe folder, each feature has extended data with an attribute
    [hidden] that reads as an integer.  Nothing else is looked at: not
    the score, the hint or the geometry of a feature, and nothing of the
    features of the other folders. *)
Theorem strip_hidden_cp_from_kml_succeeds_iff :
  forall (ns : string) (name : option string) (folders : list Folder.t),
    is_ok (strip_hidden_cp_from_kml (kml_file ns name folders)) <->
    Forall (fun f => is_etappe_folder f = true ->
              Forall (fun placemark =>
                        exists d v z,
                          cp_data placemark = Ok d /\ d !! "hidden" = Some v /\
                          Py.int v = Ok z)
                (Folder.features f)) folders.
Proof.
  intros ns name folders.
  assert (Hvalue : forall placemark,
            is_Some (hidden_value placemark) <->
            exists d v z,
              cp_data placemark = Ok d /\ d !! "hidden" = Some v /\ Py.int v = Ok z).
  { intros placemark. unfold hidden_value. split.
    - intros [z Hz].
      destruct (cp_data placemark) as [d|]; [|discriminate].
      destruct (d !! "hidden") as [v|] eqn:Hv; [|discriminate].
      destruct (Py.int v) as [z'|] eqn:Hz'; [|discriminate]. eauto 6.
    - intros (d & v & z & -> & -> & ->). eauto. }
  assert (Hall : Forall (fun f => is_etappe_folder f = true ->
                   Forall (fun placemark => is_Some (hidden_value placemark))
                     (Folder.features f)) folders <->
                 Forall (fun f => is_etappe_folder f = true ->
                   Forall (fun placemark =>
                             exists d v z,
                               cp_data placemark = Ok d /\ d !! "hidden" = Some v /\
                               Py.int v = Ok z)
                     (Folder.features f)) folders).
  { apply Forall_proper; [|done]. intros f.
    split; intros Hf Hetappe; (eapply Forall_impl; [exact (Hf Hetappe)|]);
      intros placemark; apply Hvalue. }
  rewrite <- Hall. unfold strip_hidden_cp_from_kml, kml_file, is_ok. simpl.
  destruct (mapM_result strip_folder (FolderF <$> folders)) as [news|e] eqn:Hnews; simpl.
  - apply strip_folders_Ok in Hnews as [Hok _]. split; [done | eauto].
  - split; [intros [? [=]]|]. intros Hok.
    rewrite (proj2 (strip_folders_Ok folders _) (conj Hok eq_refl)) in Hnews. discriminate.
Qed.

(** * The further properties at work *)

(** X1 on a file of three names. *)
Lemma _process_teams_file_unlines_witness :
  ["Wolf Pack"; "Otters"; "Lynx"] <> [] /\
  Forall (fun line => Py.count Py.newline line = 0%nat) ["Wolf Pack"; "Otters"; "Lynx"] /\
  (_process_teams_file (unlines ["Wolf Pack"; "Otters"; "Lynx"])
   = Ok (imap (fun i line => pretty (i + 1)%nat +:+ " " +:+ Py.strip line)
           ["Wolf Pack"; "Otters"; "Lynx"]) /\
   (Forall (fun line => Py.strip line = line) ["Wolf Pack"; "Otters"; "Lynx"] ->
    _process_teams_file (unlines ["Wolf Pack"; "Otters"; "Lynx"])
    = Ok (imap (fun i line => pretty (i + 1)%nat +:+ " " +:+ line)
            ["Wolf Pack"; "Otters"; "Lynx"]))).
Proof.
  assert (Hne : ["Wolf Pack"; "Otters"; "Lynx"] <> []) by discriminate.
  assert (Hlines : Forall (fun line => Py.count Py.newline line = 0%nat)
                     ["Wolf Pack"; "Otters"; "Lynx"]) by (repeat constructor).
  split; [exact Hne|]. split; [exact Hlines|].
  exact (_process_teams_file_unlines ["Wolf Pack"; "Otters"; "Lynx"] Hne Hlines).
Defined.

Example _process_teams_file_three_names :
  _process_teams_file (unlines ["Wolf Pack"; "Otters"; "Lynx"])
  = Ok ["1 Wolf Pack"; "2 Otters"; "3 Lynx"].
Proof. vm_compute. reflexivity. Qed.

(** X8 on the etappe folder of three placemarks. *)
Lemma from_kml_folder_checkpoints_witness :
  exists et : Etappe.t,
    from_kml_folder Sample.float Sample.to_amersfoort Sample.etappe_1 = Ok et /\
    EtappeOps.__len__ et = 3%nat /\
    (EtappeOps.__len__ et = length (Folder.features Sample.etappe_1) /\
     (2 <= EtappeOps.__len__ et)%nat /\
     CheckPoint.idx <$> EtappeOps.__iter__ et = seqZ 1 (Z.of_nat (EtappeOps.__len__ et)) /\
     NoDup (CheckPoint.idx <$> Etappe.checkpoints et) /\
     forall key : Z,
       - Z.of_nat (EtappeOps.__len__ et) <= key < Z.of_nat (EtappeOps.__len__ et) ->
       exists cp,
         EtappeOps.__getitem__ et key = Ok cp /\
         CheckPoint.idx cp = key mod Z.of_nat (EtappeOps.__len__ et) + 1).
Proof.
  eexists. split; [vm_compute; reflexivity|]. split; [reflexivity|].
  apply (from_kml_folder_checkpoints Sample.float Sample.to_amersfoort Sample.etappe_1).
  vm_compute. reflexivity.
Defined.

(** X9 on the same folder, whose name is Etappe_1_hardlopen. *)
Lemma from_kml_folder_name_witness :
  exists et : Etappe.t,
    from_kml_folder Sample.float Sample.to_amersfoort Sample.etappe_1 = Ok et /\
    Etappe.kind et = "hardlopen" /\
    exists first middle : string,
      Py.str (Folder.name Sample.etappe_1)
      = first +:+ "_" +:+ middle +:+ "_" +:+ Etappe.kind et /\
      Py.count "_" first = 0%nat /\
      Py.count "_" middle = 0%nat /\
      Py.count "_" (Etappe.kind et) = 0%nat /\
      Py.int middle = Ok (Etappe.idx et).
Proof.
  eexists. split; [vm_compute; reflexivity|]. split; [reflexivity|].
  apply (from_kml_folder_name Sample.float Sample.to_amersfoort Sample.etappe_1).
  vm_compute. reflexivity.
Defined.

(** X10 and X11 on the document with two etappe folders of index 1. *)
Lemma Parcour_init_invariant_witness :
  exists p : Parcour,
    Parcour_init Sample.float Sample.to_amersfoort "Wolf Pack"
      (Sample.file [Sample.etappe_1; Sample.notes; Sample.etappe_1_again]) = Ok p /\
    (team_names p <> [] /\
     length (team_names p) = length (Py.readlines "Wolf Pack") /\
     forall (k : Z) (et : Etappe.t),
       etappes p !! k = Some et ->
       Etappe.idx et = k /\
       (2 <= length (Etappe.checkpoints et))%nat /\
       CheckPoint.idx <$> Etappe.checkpoints et
       = seqZ 1 (Z.of_nat (length (Etappe.checkpoints et)))).
Proof.
  eexists. split; [vm_compute; reflexivity|].
  apply (Parcour_init_invariant Sample.float Sample.to_amersfoort "Wolf Pack"
           (Sample.file [Sample.etappe_1; Sample.notes; Sample.etappe_1_again])).
  vm_compute. reflexivity.
Defined.

Lemma Parcour_init_indices_witness :
  exists p : Parcour,
    Parcour_init Sample.float Sample.to_amersfoort "Wolf Pack"
      (Sample.file [Sample.etappe_1; Sample.notes; Sample.etappe_1_again]) = Ok p /\
    size (etappes p) = 1%nat /\
    exists doc rest folders ets,
      KML.features (parsed (Sample.file [Sample.etappe_1; Sample.notes; Sample.etappe_1_again]))
      = DocumentK doc :: rest /\
      Document.features doc = FolderF <$> folders /\
      Forall2 (fun f et => from_kml_folder Sample.float Sample.to_amersfoort f = Ok et)
        (filter (fun f => is_etappe_folder f = true) folders) ets /\
      dom (etappes p) =@{gset Z} list_to_set (Etappe.idx <$> ets) /\
      (size (etappes p) <= length (filter (fun f => is_etappe_folder f = true) folders))%nat /\
      (size (etappes p) = length (filter (fun f => is_etappe_folder f = true) folders)
       <-> NoDup (Etappe.idx <$> ets)).
Proof.
  eexists. split; [vm_compute; reflexivity|]. split; [vm_compute; reflexivity|].
  apply (Parcour_init_indices Sample.float Sample.to_amersfoort "Wolf Pack"
           (Sample.file [Sample.etappe_1; Sample.notes; Sample.etappe_1_again])).
  vm_compute. reflexivity.
Defined.

(** X12 on the document of an etappe folder and a folder of notes. *)
Lemma strip_hidden_cp_from_kml_accepts_extracted_witness :
  exists m : gmap Z Etappe.t,
    _process_etappes_kml Sample.float Sample.to_amersfoort
      (Sample.file [Sample.etappe_1; Sample.notes]) = Ok m /\
    exists doc rest folders,
      KML.features (parsed (Sample.file [Sample.etappe_1; Sample.notes]))
      = DocumentK doc :: rest /\
      Document.features doc = FolderF <$> folders /\
      strip_hidden_cp_from_kml (Sample.file [Sample.etappe_1; Sample.notes])
      = Ok (KML.mk [DocumentK (Document.mk (Document.ns doc) (Document.name doc)
                                 (FolderF <$> (visible_copy <$> folders)))]).
Proof.
  eexists. split; [vm_compute; reflexivity|].
  eapply (strip_hidden_cp_from_kml_accepts_extracted Sample.float Sample.to_amersfoort
            (Sample.file [Sample.etappe_1; Sample.notes])).
  vm_compute. reflexivity.
Defined.

(** X13 on the etappe folder of three placemarks, one of them hidden:
    two checkpoints are left, and the third takes the index 2. *)
Lemma from_kml_folder_visible_copy_witness :
  exists et : Etappe.t,
    from_kml_folder Sample.float Sample.to_amersfoort Sample.etappe_1 = Ok et /\
    CheckPoint.hint <$> Etappe.checkpoints et = ["Onder de brug"; "Paaltje"; "Hek"] /\
    from_kml_folder Sample.float Sample.to_amersfoort (visible_copy Sample.etappe_1) =
      let visible := filter (fun cp => CheckPoint.hidden cp = false) (Etappe.checkpoints et) in
      if bool_decide (2 <= length visible)%nat
      then Ok (Etappe.mk (Etappe.idx et) (Etappe.kind et) (renumber 0 visible))
      else Raise AssertionError.
Proof.
  eexists. split; [vm_compute; reflexivity|]. split; [reflexivity|].
  apply (from_kml_folder_visible_copy Sample.float Sample.to_amersfoort Sample.etappe_1).
  vm_compute. reflexivity.
Defined.

Example from_kml_folder_visible_copy_sample :
  (fun et => (fun cp => (CheckPoint.idx cp, CheckPoint.hint cp)) <$> Etappe.checkpoints et) <$>
    from_kml_folder Sample.float Sample.to_amersfoort (visible_copy Sample.etappe_1)
  = Ok [(1, "Onder de brug"); (2, "Hek")] /\
  from_kml_folder Sample.float Sample.to_amersfoort
    (visible_copy (Sample.folder "Etappe_3_kano"
                     [Sample.placemark "steiger" "10" "Paaltje" "1";
                      Sample.placemark "sluis" "20" "Hek" "0"]))
  = Raise AssertionError.
Proof. vm_compute. split; reflexivity. Qed.

(** X14 on the document of an etappe folder and a folder of notes. *)
Lemma strip_hidden_cp_from_kml_idempotent_witness :
  exists new_kml : KML.t,
    strip_hidden_cp_from_kml (Sample.file [Sample.etappe_1; Sample.notes]) = Ok new_kml /\
    (strip_hidden_cp_from_kml
       {| suffix := suffix (Sample.file [Sample.etappe_1; Sample.notes]);
          parsed := new_kml |} = Ok new_kml /\
     exists ns name folders,
       new_kml = KML.mk [DocumentK (Document.mk ns name (FolderF <$> folders))] /\
       Forall (fun f => is_etappe_folder f = true ->
                 Forall (fun placemark => hidden_value placemark = Some 0)
                   (Folder.features f)) folders).
Proof.
  eexists. split; [vm_compute; reflexivity|].
  apply (strip_hidden_cp_from_kml_idempotent (Sample.file [Sample.etappe_1; Sample.notes])).
  vm_compute. reflexivity.
Defined.
